(** * Announcement endpoints of the High School Management System API

    A shallow embedding of [src/backend/routers/announcements.py] and the
    properties of its four handlers (list, create, update, delete).

    The handlers talk to two MongoDB collections through the pymongo
    [Collection] interface ([find], [find_one], [insert_one], [update_one],
    [delete_one]).  Documents are Python dicts, modelled as finite maps from
    field names to values; a collection is the list of its documents in
    natural order; a handler is a function from the store to a result (or
    the exception it raises) and the store it leaves behind. *)

From Stdlib Require Import String Ascii NArith List Bool.
From stdpp Require Import gmap strings list fin_maps.

Open Scope string_scope.
Open Scope list_scope.

(** ** Values and documents *)

(** The values the handlers read and write: [None], [str], and the
    [ObjectId] the driver generates for a document inserted without an
    [_id] (a 12-byte number). *)
Inductive value : Type :=
| VNull
| VStr (s : string)
| VOid (o : N).

#[global] Instance value_eq_dec : EqDecision value.
Proof. solve_decision. Defined.

(** A document: a Python dict with string keys. *)
Abbreviation doc := (gmap string value).

Definition hex_digit (n : N) : ascii :=
  match n with
  | 0%N => "0" | 1%N => "1" | 2%N => "2" | 3%N => "3"
  | 4%N => "4" | 5%N => "5" | 6%N => "6" | 7%N => "7"
  | 8%N => "8" | 9%N => "9" | 10%N => "a" | 11%N => "b"
  | 12%N => "c" | 13%N => "d" | 14%N => "e" | _ => "f"
  end%char.

Fixpoint hex_digits (k : nat) (n : N) (acc : string) : string :=
  match k with
  | O => acc
  | S k' => hex_digits k' (N.div n 16) (String (hex_digit (N.modulo n 16)) acc)
  end.

(** [str(ObjectId)]: the 24 lower-case hexadecimal digits of the 12 bytes. *)
Definition str_of_oid (o : N) : string := hex_digits 24 o "".

(** Python's [str] on a value. *)
Definition py_str (v : value) : string :=
  match v with
  | VNull => "None"
  | VStr s => s
  | VOid o => str_of_oid o
  end.

(** ** Queries

    The filter documents the handlers build: an implicit conjunction of the
    top-level keys, [$or] over a list of filters, and per-field conditions
    (equality, [$lte], [$gte]). *)
Inductive cond : Type :=
| CEq (v : value)
| CLte (v : value)
| CGte (v : value).

#[warnings="-register-all"]
Inductive query : Type :=
| QField (f : string) (c : cond)
| QOr (qs : list query)
| QAnd (qs : list query).

(** MongoDB compares only values of the same type; strings are compared
    byte by byte (the default binary collation). *)
Definition value_leb (a b : value) : bool :=
  match a, b with
  | VStr s, VStr t => String.leb s t
  | VOid m, VOid n => N.leb m n
  | VNull, VNull => true
  | _, _ => false
  end.

(** A missing field is read as null by the comparison operators, and
    [{f: None}] matches both a null and a missing [f]. *)
Definition matches_cond (c : cond) (fv : option value) : bool :=
  match c with
  | CEq VNull => bool_decide (fv = None \/ fv = Some VNull)
  | CEq v => bool_decide (fv = Some v)
  | CLte v => value_leb (default VNull fv) v
  | CGte v => value_leb v (default VNull fv)
  end.

Fixpoint matches (q : query) (d : doc) : bool :=
  match q with
  | QField f c => matches_cond c (d !! f)
  | QOr qs => existsb (fun q' => matches q' d) qs
  | QAnd qs => forallb (fun q' => matches q' d) qs
  end.

(** The filter [{"_id": k}] for a string [k]. *)
Definition by_id (k : string) : query := QField "_id" (CEq (VStr k)).

(** ** Collections *)

Definition find (q : query) (c : list doc) : list doc :=
  List.filter (matches q) c.

Definition find_one (q : query) (c : list doc) : option doc :=
  List.find (matches q) c.

(** [update_one(filter, {"$set": upd})]: the first matching document gets
    the fields of [upd]; the count of matched documents is returned. *)
Fixpoint update_one (q : query) (upd : doc) (c : list doc) : nat * list doc :=
  match c with
  | [] => (0, [])
  | d :: c' =>
      if matches q d then (1, (upd ∪ d) :: c')
      else let '(n, c'') := update_one q upd c' in (n, d :: c'')
  end.

(** [delete_one(filter)]: the first matching document is removed; the count
    of deleted documents is returned. *)
Fixpoint delete_one (q : query) (c : list doc) : nat * list doc :=
  match c with
  | [] => (0, [])
  | d :: c' =>
      if matches q d then (1, c')
      else let '(n, c'') := delete_one q c' in (n, d :: c'')
  end.

(** The [_id]s of a collection. *)
Definition keys (c : list doc) : list (option value) :=
  List.map (fun d : doc => d !! "_id") c.

(** No two stored documents share an [_id] (MongoDB's unique index on
    [_id]). *)
Definition unique_keys (c : list doc) : Prop := NoDup (keys c).

(** ** Handlers *)

(** What a handler can raise: the [HTTPException]s of the source and the
    exceptions of the operations it calls. *)
Inductive error : Type :=
| HTTPException (status_code : nat) (detail : string)
| KeyError (key : string)
| AttributeError
| DuplicateKeyError.

(** Modelled from the spec: [database.py], which declares the two
    collection handles the handlers import, is not among the sources.  The
    Document Store and the Principal Store are the state the handlers run
    on; their operations are those of the MongoDB collection interface the
    source calls. *)
Record store : Type := Store {
  teachers_collection : list doc;
  announcements_collection : list doc
}.

(** A handler runs on the store and either returns or raises; what it wrote
    before raising stays written. *)
Definition handler (A : Type) : Type := store -> (error + A) * store.

Definition ret {A} (a : A) : handler A := fun st => (inr a, st).

Definition raise {A} (e : error) : handler A := fun st => (inl e, st).

Definition bind {A B} (m : handler A) (k : A -> handler B) : handler B :=
  fun st =>
    match m st with
    | (inl e, st') => (inl e, st')
    | (inr a, st') => k a st'
    end.

Notation "x <- m ;; k" := (bind m (fun x => k))
  (at level 100, m at next level, right associativity).

Definition teachers_find_one (q : query) : handler (option doc) :=
  fun st => (inr (find_one q (teachers_collection st)), st).

Definition announcements_find (q : query) : handler (list doc) :=
  fun st => (inr (find q (announcements_collection st)), st).

Definition announcements_find_one (q : query) : handler (option doc) :=
  fun st => (inr (find_one q (announcements_collection st)), st).

(** [insert_one(d)]: pymongo gives a document that has no [_id] the
    [ObjectId] [oid] it generated, by writing [d["_id"] = oid] into the very
    dict that was passed in, and sends it; the server refuses a key the
    collection already holds.  Returns [inserted_id] and the dict as the
    caller sees it after the call. *)
Definition announcements_insert_one (oid : N) (d : doc) : handler (value * doc) :=
  fun st =>
    let d' := match d !! "_id" with
              | Some _ => d
              | None => <["_id" := VOid oid]> d
              end in
    let c := announcements_collection st in
    if bool_decide (d' !! "_id" ∈ keys c) then (inl DuplicateKeyError, st)
    else (inr (default VNull (d' !! "_id"), d'),
          Store (teachers_collection st) (c ++ [d'])).

Definition announcements_update_one (q : query) (upd : doc) : handler nat :=
  fun st =>
    let '(n, c) := update_one q upd (announcements_collection st) in
    (inr n, Store (teachers_collection st) c).

Definition announcements_delete_one (q : query) : handler nat :=
  fun st =>
    let '(n, c) := delete_one q (announcements_collection st) in
    (inr n, Store (teachers_collection st) c).

(** [d[k]] *)
Definition getitem (d : doc) (k : string) : handler value :=
  match d !! k with
  | Some v => ret v
  | None => raise (KeyError k)
  end.

(** [ann["id"] = str(ann.get("_id", "")); ann.pop("_id", None)] *)
Definition expose_id (ann : doc) : doc :=
  delete "_id" (<["id" := VStr (py_str (default (VStr "") (ann !! "_id")))]> ann).

(** An [Optional[str]] argument as a stored value. *)
Definition opt_value (o : option string) : value :=
  match o with
  | Some s => VStr s
  | None => VNull
  end.

Definition require_auth (username : string) : handler doc :=
  user <- teachers_find_one (by_id username);;
  match user with
  | None => raise (HTTPException 401 "Authentication required")
  | Some u =>
      if bool_decide (u = ∅)
      then raise (HTTPException 401 "Authentication required")
      else ret u
  end.

(** The filter of the active announcements at [now]. *)
Definition active_query (now : string) : query :=
  QAnd [ QOr [ QField "start_date" (CEq VNull);
               QField "start_date" (CLte (VStr now)) ];
         QField "expiration_date" (CGte (VStr now)) ].

(** [now] is [datetime.utcnow().isoformat()] at the time of the call. *)
Definition get_announcements (now : string) (active_only : bool)
  : handler (list doc) :=
  let query := if active_only then active_query now else QAnd [] in
  anns <- announcements_find query;;
  ret (List.map expose_id anns).

(** The dict [create_announcement] builds: [{"message": message,
    "start_date": start_date, "expiration_date": expiration_date,
    "created_by": created_by}]. *)
Definition new_announcement (message : string) (start_date : option string)
    (expiration_date : string) (created_by : value) : doc :=
  <["created_by" := created_by]>
    (<["expiration_date" := VStr expiration_date]>
      (<["start_date" := opt_value start_date]>
        {["message" := VStr message]})).

(** The function behind [POST /announcements].  Its parameter [username] is
    what the dependency [require_auth] returned: the principal's record.
    [oid] is the [ObjectId] the driver generates for the insert.
    [expiration_date] is declared [str]; the guard [not expiration_date]
    holds for [None] and for the empty string alike. *)
Definition create_announcement (oid : N) (message : string)
    (expiration_date : option string) (start_date : option string)
    (username : doc) : handler doc :=
  match expiration_date with
  | None | Some "" =>
      raise (HTTPException 400 "Expiration date required")
  | Some e =>
      created_by <- getitem username "username";;
      let ann := new_announcement message start_date e created_by in
      r <- announcements_insert_one oid ann;;
      let '(inserted_id, ann) := r in
      ret (<["id" := VStr (py_str inserted_id)]> ann)
  end.

Definition set_if_given (k : string) (o : option string) (update : doc) : doc :=
  match o with
  | Some s => <[k := VStr s]> update
  | None => update
  end.

(** The function behind [PUT /announcements/{announcement_id}]. *)
Definition update_announcement (announcement_id : string)
    (message expiration_date start_date : option string)
    (username : doc) : handler doc :=
  let update : doc :=
    set_if_given "start_date" start_date
      (set_if_given "expiration_date" expiration_date
        (set_if_given "message" message ∅)) in
  if bool_decide (update = ∅)
  then raise (HTTPException 400 "No update fields provided")
  else
    matched_count <- announcements_update_one (by_id announcement_id) update;;
    if Nat.eqb matched_count 0
    then raise (HTTPException 404 "Announcement not found")
    else
      ann <- announcements_find_one (by_id announcement_id);;
      match ann with
      | None => raise AttributeError
      | Some a => ret (expose_id a)
      end.

(** The function behind [DELETE /announcements/{announcement_id}]. *)
Definition delete_announcement (announcement_id : string) (username : doc)
  : handler doc :=
  deleted_count <- announcements_delete_one (by_id announcement_id);;
  if Nat.eqb deleted_count 0
  then raise (HTTPException 404 "Announcement not found")
  else ret {["message" := VStr "Announcement deleted"]}.

(** ** Routes

    [username: str = Depends(require_auth)]: the framework calls
    [require_auth] on the caller's [username] first and passes what it
    returns to the function; if it raises, the function is not called.
    [create_op], [update_op] and [delete_op] are that call, with every
    parameter in hand, up to the function's return; the request as a
    whole, with its parameter check and its response step, is
    [create_route], [update_route] and [delete_route] below. *)
Definition Depends_require_auth {A} (username : string)
    (endpoint : doc -> handler A) : handler A :=
  user <- require_auth username;;
  endpoint user.

Definition create_op (oid : N) (message : string)
    (expiration_date start_date : option string) (username : string)
  : handler doc :=
  Depends_require_auth username
    (create_announcement oid message expiration_date start_date).

Definition update_op (announcement_id : string)
    (message expiration_date start_date : option string) (username : string)
  : handler doc :=
  Depends_require_auth username
    (update_announcement announcement_id message expiration_date start_date).

Definition delete_op (announcement_id : string) (username : string)
  : handler doc :=
  Depends_require_auth username (delete_announcement announcement_id).

(** ** Vocabulary of the properties *)

(** The HTTP status a handler's outcome carries, if it raised an
    [HTTPException]. *)
Definition status {A} (r : error + A) : option nat :=
  match r with
  | inl (HTTPException code _) => Some code
  | _ => None
  end.

(** The error of an unknown identity. *)
Definition unauthorized : error := HTTPException 401 "Authentication required".

(** A principal record with identity [username] exists in the Principal
    Store. *)
Definition principal_exists (username : string) (st : store) : Prop :=
  exists u : doc, In u (teachers_collection st) /\ u !! "_id" = Some (VStr username).

(** A stored announcement matches the identifier [k]: what the filter
    [{"_id": k}] selects, a document whose key is the string [k]. *)
Definition has_id (k : string) (ann : doc) : Prop :=
  ann !! "_id" = Some (VStr k).

#[global] Instance has_id_dec (k : string) (ann : doc) : Decision (has_id k ann).
Proof. unfold has_id. apply _. Defined.

(** Lexical order on timestamps. *)
Definition str_le (a b : string) : Prop := String.leb a b = true.

(** An announcement is active at [now]: its [start_date] is absent, null
    or at most [now], and its [expiration_date] is at least [now]. *)
Definition is_active (now : string) (ann : doc) : Prop :=
  match ann !! "start_date" with
  | None | Some VNull => True
  | Some (VStr s) => str_le s now
  | Some (VOid _) => False
  end /\
  match ann !! "expiration_date" with
  | Some (VStr e) => str_le now e
  | _ => False
  end.

#[global] Instance is_active_dec (now : string) (ann : doc) :
  Decision (is_active now ann).
Proof.
  unfold is_active, str_le.
  destruct (ann !! "start_date") as [[| |]|],
    (ann !! "expiration_date") as [[| |]|]; apply _.
Defined.

(** The value an update call supplies for field [k], if any. *)
Definition supplied (message expiration_date start_date : option string)
    (k : string) : option string :=
  if bool_decide (k = "message") then message
  else if bool_decide (k = "expiration_date") then expiration_date
  else if bool_decide (k = "start_date") then start_date
  else None.

(** A stored announcement carries a non-empty [expiration_date]. *)
Definition has_expiration (ann : doc) : Prop :=
  exists e, ann !! "expiration_date" = Some (VStr e) /\ e <> "".


(** ** A sample store *)

Definition jdoe : doc :=
  <["display_name" := VStr "J. Doe"]>
    (<["username" := VStr "jdoe"]> {["_id" := VStr "jdoe"]}).

Definition ann_welcome : doc :=
  <["created_by" := VStr "jdoe"]>
    (<["expiration_date" := VStr "2025-06-30T00:00:00"]>
      (<["start_date" := VNull]>
        (<["message" := VStr "Welcome"]> {["_id" := VStr "welcome"]}))).

Definition ann_exams : doc :=
  <["created_by" := VStr "jdoe"]>
    (<["expiration_date" := VStr "2024-12-20T00:00:00"]>
      (<["start_date" := VStr "2024-12-01T00:00:00"]>
        (<["message" := VStr "Exams"]> {["_id" := VOid 1]}))).

Definition sample_store : store :=
  Store [jdoe] [ann_welcome; ann_exams].

(** The spec's example: what "Picture day" is stored as, and the store
    after it was created in [sample_store] under the [ObjectId] 2. *)
Definition ann_picture_day : doc :=
  <["_id" := VOid 2]>
    (new_announcement "Picture day" None "2025-01-10T00:00:00" (VStr "jdoe")).

Definition sample_store_after_create : store :=
  Store [jdoe] [ann_welcome; ann_exams; ann_picture_day].

(** ** Further vocabulary *)

(** The dict [update_announcement] builds from the arguments that are not
    [None]. *)
Definition update_fields (message expiration_date start_date : option string)
  : doc :=
  set_if_given "start_date" start_date
    (set_if_given "expiration_date" expiration_date
      (set_if_given "message" message ∅)).

(** An update call that supplies no field. *)
Definition no_fields (message expiration_date start_date : option string)
  : Prop :=
  message = None /\ expiration_date = None /\ start_date = None.

(** No stored document is keyed by the string [k]. *)
Definition id_absent (k : string) (c : list doc) : Prop :=
  forall d, In d c -> ~ has_id k d.

(** [ann] is the first document of [c] keyed by the string [k], between
    [l1] and [l2]. *)
Definition first_with_id (k : string) (c l1 : list doc) (ann : doc)
    (l2 : list doc) : Prop :=
  c = l1 ++ ann :: l2 /\ id_absent k l1 /\ has_id k ann.

(** The values of field [key] across a collection, in store order. *)
Definition column (key : string) (c : list doc) : list (option value) :=
  List.map (fun d : doc => d !! key) c.

(** The later of two values supplied for one field. *)
Definition later (b a : option string) : option string :=
  match b with
  | Some _ => b
  | None => a
  end.

(** A handler returned (did not raise). *)
Definition returned {A} (r : error + A) : Prop := exists a, r = inr a.

(** More principals: one whose record has a [username], one whose record
    has none. *)
Definition asmith : doc :=
  <["username" := VStr "asmith"]> {["_id" := VStr "asmith"]}.

Definition guest : doc := {["_id" := VStr "guest"]}.

Definition staff_store : store :=
  Store [jdoe; asmith; guest] [ann_welcome; ann_exams].

(** ** Requests

    A request as the framework serves it.  A query parameter is present or
    absent.  The dependency runs first, on its own parameter; then the
    function's required parameters are checked, and a request that lacks
    one is answered 422 without the function being called; what the
    function returns goes through the response step, which fails on a
    value it cannot encode as JSON. *)

(** How a request ends. *)
Inductive outcome (A : Type) : Type :=
| Responded (a : A)
| Raised (e : error)
| Unprocessable
| ResponseFailed.

Arguments Responded {A} a.
Arguments Raised {A} e.
Arguments Unprocessable {A}.
Arguments ResponseFailed {A}.

(** The status of the answer: 422 for a request rejected by parameter
    validation, 500 for an exception that is not an [HTTPException] and for
    a failed response step. *)
Definition http_status {A} (o : outcome A) : nat :=
  match o with
  | Responded _ => 200
  | Raised (HTTPException code _) => code
  | Raised _ => 500
  | Unprocessable => 422
  | ResponseFailed => 500
  end.

(** A dict the response step can encode: none of its values is an
    [ObjectId]. *)
Definition json_encodable (d : doc) : Prop :=
  map_Forall (fun (_ : string) (v : value) => forall o, v <> VOid o) d.

#[global] Instance json_encodable_dec (d : doc) : Decision (json_encodable d).
Proof.
  unfold json_encodable. apply map_Forall_dec. intros _ [| |o].
  - left. discriminate.
  - left. discriminate.
  - right. intros H. now apply (H o).
Defined.

(** The response step ([response_model=Dict[str, Any]]). *)
Definition respond (r : (error + doc) * store) : outcome doc * store :=
  match r with
  | (inl e, st) => (Raised e, st)
  | (inr d, st) =>
      if bool_decide (json_encodable d) then (Responded d, st)
      else (ResponseFailed, st)
  end.

(** [POST /announcements]: [username] is the dependency's parameter;
    [message] and [expiration_date] are declared [str] without a default,
    [start_date] is [Optional[str] = None]. *)
Definition create_route (oid : N)
    (message expiration_date start_date username : option string)
  : store -> outcome doc * store :=
  fun st =>
    match username with
    | None => (Unprocessable, st)
    | Some u =>
        match require_auth u st with
        | (inl e, st') => (Raised e, st')
        | (inr user, st') =>
            match message, expiration_date with
            | Some m, Some e =>
                respond (create_announcement oid m (Some e) start_date user st')
            | _, _ => (Unprocessable, st')
            end
        end
    end.

(** [PUT /announcements/{announcement_id}]: the three fields are
    [Optional[str] = None]. *)
Definition update_route (announcement_id : string)
    (message expiration_date start_date username : option string)
  : store -> outcome doc * store :=
  fun st =>
    match username with
    | None => (Unprocessable, st)
    | Some u =>
        respond (update_op announcement_id message expiration_date start_date
                   u st)
    end.

(** [DELETE /announcements/{announcement_id}]. *)
Definition delete_route (announcement_id : string) (username : option string)
  : store -> outcome doc * store :=
  fun st =>
    match username with
    | None => (Unprocessable, st)
    | Some u => respond (delete_op announcement_id u st)
    end.

(** ** Stores the handlers build *)

(** A call of one of the four handlers. *)
Inductive request : Type :=
| ReqList (now : string) (active_only : bool)
| ReqCreate (oid : N) (message : string)
    (expiration_date start_date : option string) (username : string)
| ReqUpdate (announcement_id : string)
    (message expiration_date start_date : option string) (username : string)
| ReqDelete (announcement_id : string) (username : string).

(** The store a call leaves. *)
Definition serve (st : store) (req : request) : store :=
  match req with
  | ReqList now active_only => (get_announcements now active_only st).2
  | ReqCreate oid message expiration_date start_date username =>
      (create_op oid message expiration_date start_date username st).2
  | ReqUpdate announcement_id message expiration_date start_date username =>
      (update_op announcement_id message expiration_date start_date
         username st).2
  | ReqDelete announcement_id username =>
      (delete_op announcement_id username st).2
  end.

(** [st] is what some sequence of calls makes of an empty announcements
    collection, the principals being [teachers]. *)
Definition built_by_handlers (teachers : list doc) (st : store) : Prop :=
  exists reqs : list request, st = fold_left serve reqs (Store teachers []).

(** Every stored document is keyed by an [ObjectId]. *)
Definition oid_keyed (c : list doc) : Prop :=
  Forall (fun d : doc => exists o, d !! "_id" = Some (VOid o)) c.

(** The store after "Picture day" was created through the handlers, from
    an empty collection. *)
Definition picture_day_store : store := Store [jdoe] [ann_picture_day].

(** ** Queries and collections *)

Lemma matches_by_id (k : string) (d : doc) :
  matches (by_id k) d = true <-> has_id k d.
Proof.
  unfold by_id, has_id. simpl. apply bool_decide_eq_true.
Qed.

Lemma matches_by_id_false (k : string) (d : doc) :
  matches (by_id k) d = false <-> ~ has_id k d.
Proof.
  rewrite <- matches_by_id. destruct (matches (by_id k) d); split; congruence.
Qed.

Lemma matches_active (now : string) (ann : doc) :
  matches (active_query now) ann = true <-> is_active now ann.
Proof.
  unfold active_query, is_active, str_le. simpl.
  rewrite !andb_true_r, andb_true_iff, !orb_false_r, orb_true_iff.
  rewrite bool_decide_eq_true.
  destruct (ann !! "start_date") as [[|s|o]|],
    (ann !! "expiration_date") as [[|e|o']|]; simpl;
    intuition (try discriminate; auto).
Qed.

Lemma matches_all (d : doc) : matches (QAnd []) d = true.
Proof. reflexivity. Qed.

Lemma find_all (c : list doc) : find (QAnd []) c = c.
Proof.
  unfold find. induction c as [|d c IH]; [reflexivity|].
  cbn [List.filter]. rewrite matches_all. now f_equal.
Qed.

Lemma find_active (now : string) (c : list doc) :
  find (active_query now) c = filter (is_active now) c.
Proof.
  unfold find. induction c as [|d c IH]; [reflexivity|].
  cbn [List.filter]. rewrite filter_cons, IH.
  destruct (decide (is_active now d)) as [H|H].
  - apply matches_active in H. now rewrite H.
  - destruct (matches (active_query now) d) eqn:E; [|reflexivity].
    apply matches_active in E. contradiction.
Qed.

Lemma find_one_by_id_Some (k : string) (c : list doc) (d : doc) :
  find_one (by_id k) c = Some d -> In d c /\ has_id k d.
Proof.
  intros H. apply find_some in H as [Hin Hm]. now apply matches_by_id in Hm.
Qed.

Lemma find_one_by_id_None (k : string) (c : list doc) :
  find_one (by_id k) c = None <-> (forall d, In d c -> ~ has_id k d).
Proof.
  split.
  - intros H d Hin. apply matches_by_id_false. exact (find_none _ _ H d Hin).
  - intros H. destruct (find_one (by_id k) c) as [d|] eqn:E; [|reflexivity].
    apply find_one_by_id_Some in E as [Hin Hid]. now destruct (H d Hin).
Qed.

(** ** Authentication *)

Lemma require_auth_cases (username : string) (st : store) :
  (principal_exists username st /\
   exists u, require_auth username st = (inr u, st) /\
             In u (teachers_collection st) /\ has_id username u) \/
  (~ principal_exists username st /\
   require_auth username st = (inl unauthorized, st)).
Proof.
  unfold require_auth, bind, teachers_find_one, principal_exists.
  destruct (find_one (by_id username) (teachers_collection st)) as [u|] eqn:E.
  - apply find_one_by_id_Some in E as [Hin Hid]. left.
    split; [now exists u|]. exists u.
    rewrite bool_decide_eq_false_2; [easy|].
    intros ->. unfold has_id in Hid. now rewrite lookup_empty in Hid.
  - right. split; [|reflexivity].
    intros (u & Hin & Hid). exact (proj1 (find_one_by_id_None _ _) E u Hin Hid).
Qed.

(** What a route does with its function once [require_auth] has run. *)
Lemma Depends_require_auth_cases {A} (username : string)
    (endpoint : doc -> handler A) (st : store) :
  (principal_exists username st /\
   exists u, In u (teachers_collection st) /\ has_id username u /\
             Depends_require_auth username endpoint st = endpoint u st) \/
  (~ principal_exists username st /\
   Depends_require_auth username endpoint st = (inl unauthorized, st)).
Proof.
  unfold Depends_require_auth, bind.
  destruct (require_auth_cases username st) as [[H (u & E & Hin & Hid)]|[H E]];
    rewrite E; [left|right]; eauto.
Qed.

Lemma store_eta (st : store) :
  Store (teachers_collection st) (announcements_collection st) = st.
Proof. now destruct st. Qed.

Lemma update_one_no_match (k : string) (upd : doc) (c : list doc) :
  (forall d, In d c -> ~ has_id k d) -> update_one (by_id k) upd c = (0, c).
Proof.
  induction c as [|d c IH]; intros H; [reflexivity|].
  cbn [update_one].
  rewrite (proj2 (matches_by_id_false k d)) by (apply H; now left).
  rewrite IH; [reflexivity|]. intros d' Hin. apply H. now right.
Qed.

Lemma delete_one_no_match (k : string) (c : list doc) :
  (forall d, In d c -> ~ has_id k d) -> delete_one (by_id k) c = (0, c).
Proof.
  induction c as [|d c IH]; intros H; [reflexivity|].
  cbn [delete_one].
  rewrite (proj2 (matches_by_id_false k d)) by (apply H; now left).
  rewrite IH; [reflexivity|]. intros d' Hin. apply H. now right.
Qed.

Lemma set_if_given_empty (message expiration_date start_date : option string) :
  set_if_given "start_date" start_date
    (set_if_given "expiration_date" expiration_date
      (set_if_given "message" message ∅)) = (∅ : doc)
  <-> message = None /\ expiration_date = None /\ start_date = None.
Proof.
  split.
  - destruct start_date; cbn [set_if_given];
      [intros H; now apply insert_non_empty in H|].
    destruct expiration_date; cbn [set_if_given];
      [intros H; now apply insert_non_empty in H|].
    destruct message; cbn [set_if_given];
      [intros H; now apply insert_non_empty in H|].
    easy.
  - now intros (-> & -> & ->).
Qed.

(** ** Outcomes of the functions behind the routes *)

Lemma create_announcement_status (oid : N) (message : string)
    (expiration_date start_date : option string) (user : doc) (st : store) :
  status (create_announcement oid message expiration_date start_date user st).1
  <> Some 401.
Proof.
  unfold create_announcement, bind, getitem, announcements_insert_one, ret, raise.
  destruct expiration_date as [[|a e]|]; [easy| |easy].
  destruct (user !! "username"); [|easy].
  destruct (new_announcement _ _ _ _ !! "_id");
    match goal with |- context [bool_decide ?P] => destruct (bool_decide P) end;
    easy.
Qed.

Lemma update_announcement_status (announcement_id : string)
    (message expiration_date start_date : option string) (user : doc)
    (st : store) :
  status (update_announcement announcement_id message expiration_date
            start_date user st).1 <> Some 401.
Proof.
  unfold update_announcement, bind, announcements_update_one,
    announcements_find_one, ret, raise.
  match goal with |- context [bool_decide ?P] => destruct (bool_decide P) end;
    [easy|].
  destruct (update_one _ _ _) as [n c]. destruct (Nat.eqb n 0); [easy|].
  cbn [announcements_collection]. destruct (find_one _ c); easy.
Qed.

Lemma delete_announcement_status (announcement_id : string) (user : doc)
    (st : store) :
  status (delete_announcement announcement_id user st).1 <> Some 401.
Proof.
  unfold delete_announcement, bind, announcements_delete_one, ret, raise.
  destruct (delete_one _ _) as [n c]. destruct (Nat.eqb n 0); easy.
Qed.

Lemma Depends_require_auth_401 {A} (username : string)
    (endpoint : doc -> handler A) (st : store) :
  (forall u, status (endpoint u st).1 <> Some 401) ->
  let r := Depends_require_auth username endpoint st in
  (status r.1 = Some 401 <-> ~ principal_exists username st) /\
  (status r.1 = Some 401 -> r = (inl unauthorized, st)).
Proof.
  intros Hk r. subst r.
  destruct (Depends_require_auth_cases username endpoint st)
    as [[H (u & _ & _ & E)]|[H E]]; rewrite E.
  - split; [split|]; intros H'; [now destruct (Hk u)|easy|now destruct (Hk u)].
  - easy.
Qed.

(** C3. Create, update and delete fail with the authentication error (401)
    exactly when no principal record with the supplied identity exists in
    the Principal Store; when they fail this way, whatever the other
    arguments are, nothing else was checked and the store is as it was. *)
Theorem authentication_required (username : string) (st : store) :
  (forall oid message expiration_date start_date,
     let r := create_op oid message expiration_date start_date username st in
     (status r.1 = Some 401 <-> ~ principal_exists username st) /\
     (status r.1 = Some 401 -> r = (inl unauthorized, st))) /\
  (forall announcement_id message expiration_date start_date,
     let r := update_op announcement_id message expiration_date start_date
                username st in
     (status r.1 = Some 401 <-> ~ principal_exists username st) /\
     (status r.1 = Some 401 -> r = (inl unauthorized, st))) /\
  (forall announcement_id,
     let r := delete_op announcement_id username st in
     (status r.1 = Some 401 <-> ~ principal_exists username st) /\
     (status r.1 = Some 401 -> r = (inl unauthorized, st))).
Proof.
  repeat split; intros *; apply Depends_require_auth_401; intros u;
    auto using create_announcement_status, update_announcement_status,
      delete_announcement_status.
Qed.

(** ** Listing *)

Lemma expose_id_fields (ann : doc) :
  expose_id ann !! "_id" = None /\
  expose_id ann !! "id" = Some (VStr (py_str (default (VStr "") (ann !! "_id")))) /\
  (forall k, k <> "id" -> k <> "_id" -> expose_id ann !! k = ann !! k).
Proof.
  unfold expose_id. split; [apply lookup_delete_eq|]. split.
  - rewrite lookup_delete_ne by easy. apply lookup_insert_eq.
  - intros k H1 H2. rewrite lookup_delete_ne by easy.
    now rewrite lookup_insert_ne by easy.
Qed.

Lemma get_announcements_all (now : string) (st : store) :
  get_announcements now false st =
    (inr (List.map expose_id (announcements_collection st)), st).
Proof.
  unfold get_announcements, bind, announcements_find, ret.
  now rewrite find_all.
Qed.

Lemma get_announcements_active (now : string) (st : store) :
  get_announcements now true st =
    (inr (List.map expose_id
            (filter (is_active now) (announcements_collection st))), st).
Proof.
  unfold get_announcements, bind, announcements_find, ret.
  now rewrite find_active.
Qed.

(** C1. With [active_only] the list holds exactly the stored records whose
    [start_date] is absent, null or lexically at most [now] and whose
    [expiration_date] is lexically at least [now]; without it, every stored
    record.  Each returned record is the stored one with the store's
    identifier under [id] and without the store's key field [_id]; the store
    is left as it was. *)
Theorem get_announcements_spec (now : string) (st : store) :
  get_announcements now true st =
    (inr (List.map expose_id
            (filter (is_active now) (announcements_collection st))), st)
  /\
  get_announcements now false st =
    (inr (List.map expose_id (announcements_collection st)), st)
  /\
  (forall ann : doc,
     expose_id ann !! "_id" = None /\
     (forall v, ann !! "_id" = Some v ->
                expose_id ann !! "id" = Some (VStr (py_str v))) /\
     (forall k, k <> "id" -> k <> "_id" -> expose_id ann !! k = ann !! k)).
Proof.
  split; [apply get_announcements_active|].
  split; [apply get_announcements_all|].
  intros ann. destruct (expose_id_fields ann) as (Hkey & Hid & Hrest).
  split; [exact Hkey|]. split; [|exact Hrest].
  intros v Hv. now rewrite Hid, Hv.
Qed.

(** C10. Listing needs no authentication: it takes no caller identity, it
    never raises (so never the authentication error), and what it returns
    does not depend on the Principal Store, which may be empty. *)
Theorem get_announcements_no_auth (now : string) (active_only : bool)
    (st : store) :
  exists anns,
    get_announcements now active_only st = (inr anns, st) /\
    forall teachers,
      get_announcements now active_only
        (Store teachers (announcements_collection st)) =
      (inr anns, Store teachers (announcements_collection st)).
Proof.
  unfold get_announcements, bind, announcements_find, ret.
  eexists. split; [reflexivity|]. intros teachers. reflexivity.
Qed.

(** ** Validation errors *)

(** C5. For an authenticated caller, an update that supplies no field fails
    with the validation error (400), and one that supplies a field but names
    an identifier no stored record matches fails with the not-found error
    (404); either way the store is as it was. *)
Theorem update_errors (announcement_id : string)
    (message expiration_date start_date : option string) (username : string)
    (st : store) :
  principal_exists username st ->
  ((message = None /\ expiration_date = None /\ start_date = None) ->
   update_op announcement_id message expiration_date start_date username st =
     (inl (HTTPException 400 "No update fields provided"), st)) /\
  (~ (message = None /\ expiration_date = None /\ start_date = None) ->
   (forall ann, In ann (announcements_collection st) ->
                ~ has_id announcement_id ann) ->
   update_op announcement_id message expiration_date start_date username st =
     (inl (HTTPException 404 "Announcement not found"), st)).
Proof.
  intros Hp. unfold update_op.
  destruct (Depends_require_auth_cases username
              (update_announcement announcement_id message expiration_date
                 start_date) st)
    as [[_ (u & _ & _ & E)]|[H _]]; [|contradiction].
  rewrite E. unfold update_announcement. split.
  - intros Hnone. apply set_if_given_empty in Hnone.
    now rewrite bool_decide_eq_true_2.
  - intros Hsome Hno. rewrite <- set_if_given_empty in Hsome.
    rewrite bool_decide_eq_false_2 by exact Hsome.
    unfold bind, announcements_update_one.
    rewrite update_one_no_match by exact Hno.
    cbn. now rewrite store_eta.
Qed.

Lemma update_errors_witness :
  update_op "welcome" None None None "jdoe" sample_store =
    (inl (HTTPException 400 "No update fields provided"), sample_store) /\
  update_op "farewell" (Some "Bye") None None "jdoe" sample_store =
    (inl (HTTPException 404 "Announcement not found"), sample_store).
Proof.
  assert (Hp : principal_exists "jdoe" sample_store).
  { exists jdoe. split; [now left | reflexivity]. }
  split.
  - now apply (update_errors "welcome" None None None "jdoe" sample_store Hp).
  - apply (update_errors "farewell" (Some "Bye") None None "jdoe"
             sample_store Hp).
    + intros (H & _). discriminate H.
    + intros ann [<- | [<- | []]]; unfold has_id; now vm_compute.
Defined.

(** ** Updating and deleting by identifier *)


(** The first document with identifier [k], and what surrounds it. *)
Lemma find_one_split (k : string) (c : list doc) (ann : doc) :
  find_one (by_id k) c = Some ann ->
  exists l1 l2, c = l1 ++ ann :: l2 /\ (forall d, In d l1 -> ~ has_id k d).
Proof.
  unfold find_one. induction c as [|d c IH]; [discriminate|].
  cbn [List.find]. destruct (matches (by_id k) d) eqn:E.
  - intros [= ->]. now exists [], c.
  - intros H. destruct (IH H) as (l1 & l2 & -> & Hl1).
    exists (d :: l1), l2. split; [reflexivity|].
    intros d' [<- | Hin]; [now apply matches_by_id_false | now apply Hl1].
Qed.


Lemma update_one_split (k : string) (upd : doc) (l1 l2 : list doc) (ann : doc) :
  (forall d, In d l1 -> ~ has_id k d) -> has_id k ann ->
  update_one (by_id k) upd (l1 ++ ann :: l2) = (1, l1 ++ (upd ∪ ann) :: l2).
Proof.
  intros Hl1 Hid. induction l1 as [|d l1 IH]; cbn [app update_one].
  - now rewrite (proj2 (matches_by_id k ann)).
  - rewrite (proj2 (matches_by_id_false k d)) by (apply Hl1; now left).
    rewrite IH; [reflexivity|]. intros d' Hin. apply Hl1. now right.
Qed.

Lemma find_one_app (k : string) (l1 l2 : list doc) (ann : doc) :
  (forall d, In d l1 -> ~ has_id k d) -> has_id k ann ->
  find_one (by_id k) (l1 ++ ann :: l2) = Some ann.
Proof.
  intros Hl1 Hid. unfold find_one.
  induction l1 as [|d l1 IH]; cbn [app List.find].
  - now rewrite (proj2 (matches_by_id k ann)).
  - rewrite (proj2 (matches_by_id_false k d)) by (apply Hl1; now left).
    apply IH. intros d' Hin. apply Hl1. now right.
Qed.

Lemma update_lookup (message expiration_date start_date : option string)
    (k : string) :
  set_if_given "start_date" start_date
    (set_if_given "expiration_date" expiration_date
      (set_if_given "message" message (∅ : doc))) !! k
  = VStr <$> supplied message expiration_date start_date k.
Proof.
  unfold supplied, set_if_given.
  repeat case_bool_decide; subst;
    destruct start_date, expiration_date, message; cbn [fmap option_fmap option_map];
    repeat (rewrite ?lookup_insert_eq, ?lookup_empty;
            try rewrite lookup_insert_ne by congruence);
    reflexivity || congruence.
Qed.

Lemma set_fields_lookup (message expiration_date start_date : option string)
    (ann : doc) (k : string) :
  (set_if_given "start_date" start_date
     (set_if_given "expiration_date" expiration_date
       (set_if_given "message" message ∅)) ∪ ann) !! k
  = match supplied message expiration_date start_date k with
    | Some s => Some (VStr s)
    | None => ann !! k
    end.
Proof.
  rewrite lookup_union, update_lookup.
  destruct (supplied message expiration_date start_date k);
    cbn; now destruct (ann !! k).
Qed.

Lemma sample_principal : principal_exists "jdoe" sample_store.
Proof. exists jdoe. split; [now left | reflexivity]. Qed.



(** ** Creating *)

Lemma new_announcement_lookup (message : string) (start_date : option string)
    (e : string) (created_by : value) :
  let ann := new_announcement message start_date e created_by in
  ann !! "message" = Some (VStr message) /\
  ann !! "start_date" = Some (opt_value start_date) /\
  ann !! "expiration_date" = Some (VStr e) /\
  ann !! "created_by" = Some created_by /\
  ann !! "_id" = None /\
  ann !! "id" = None.
Proof.
  unfold new_announcement. cbn zeta.
  repeat split;
    repeat (first [ rewrite lookup_insert_eq
                  | rewrite lookup_insert_ne by congruence
                  | rewrite lookup_singleton_eq
                  | rewrite lookup_singleton_ne by congruence ]);
    reflexivity.
Qed.

(** A create that returns: who called, what was stored, what came back. *)
Lemma create_op_inv (oid : N) (message : string)
    (expiration_date start_date : option string) (username : string)
    (st : store) (r : doc) (st' : store) :
  create_op oid message expiration_date start_date username st = (inr r, st') ->
  exists (u : doc) (created_by : value) (e : string),
    In u (teachers_collection st) /\ has_id username u /\
    u !! "username" = Some created_by /\
    expiration_date = Some e /\ e <> "" /\
    (Some (VOid oid) ∉ keys (announcements_collection st)) /\
    r = <["id" := VStr (str_of_oid oid)]>
          (<["_id" := VOid oid]>
            (new_announcement message start_date e created_by)) /\
    st' = Store (teachers_collection st)
            (announcements_collection st ++
             [<["_id" := VOid oid]>
                (new_announcement message start_date e created_by)]).
Proof.
  unfold create_op.
  destruct (Depends_require_auth_cases username
              (create_announcement oid message expiration_date start_date) st)
    as [[_ (u & Hin & Hid & E)]|[_ E]]; rewrite E; [|discriminate].
  clear E. unfold create_announcement.
  destruct expiration_date as [[|a e]|]; [discriminate| |discriminate].
  unfold bind, getitem. destruct (u !! "username") as [cb|] eqn:Hcb;
    [|discriminate].
  cbn [ret]. unfold announcements_insert_one.
  destruct (new_announcement_lookup message start_date (String a e) cb)
    as (_ & _ & _ & _ & Hnone & _).
  rewrite Hnone, lookup_insert_eq.
  case_bool_decide as Hfresh; [discriminate|].
  cbn [default ret py_str]. intros [= <- <-].
  exists u, cb, (String a e). repeat split; auto.
Qed.

(** C8. After a create that succeeds, an unfiltered list holds the record
    create returned: the listed record has the returned [id] and the same
    [message], [start_date], [expiration_date] and [created_by]. *)
Theorem create_then_list (now : string) (oid : N) (message : string)
    (expiration_date start_date : option string) (username : string)
    (st : store) (r : doc) (st' : store) :
  create_op oid message expiration_date start_date username st = (inr r, st') ->
  exists (anns : list doc) (ann : doc),
    get_announcements now false st' = (inr anns, st') /\
    In ann anns /\
    Forall (fun k => is_Some (r !! k) /\ ann !! k = r !! k)
      ["id"; "message"; "start_date"; "expiration_date"; "created_by"].
Proof.
  intros H.
  destruct (create_op_inv _ _ _ _ _ _ _ _ H)
    as (u & cb & e & _ & _ & _ & _ & _ & _ & -> & ->).
  pose proof (get_announcements_all now
                (Store (teachers_collection st)
                   (announcements_collection st ++
                    [<["_id" := VOid oid]>
                       (new_announcement message start_date e cb)])))
    as Hlist.
  cbn [announcements_collection] in Hlist.
  eexists. exists (expose_id (<["_id" := VOid oid]>
                     (new_announcement message start_date e cb))).
  split; [exact Hlist|]. split.
  - apply in_map, in_or_app. right. now left.
  - destruct (new_announcement_lookup message start_date e cb)
      as (Hm & Hs & He & Hc & _ & _).
    unfold expose_id. rewrite lookup_insert_eq. cbn [default py_str].
    repeat (apply Forall_cons_2 || apply Forall_nil_2).
    all: split;
      repeat (first [ rewrite lookup_insert_eq
                    | rewrite lookup_insert_ne by congruence
                    | rewrite lookup_delete_ne by congruence ]);
      rewrite ?Hm, ?Hs, ?He, ?Hc; eauto.
Qed.

Lemma sample_create :
  create_op 2 "Picture day" (Some "2025-01-10T00:00:00") None "jdoe"
    sample_store
  = (inr (<["id" := VStr "000000000000000000000002"]> ann_picture_day),
     sample_store_after_create).
Proof. vm_compute. reflexivity. Qed.

Lemma create_then_list_witness :
  exists (anns : list doc) (ann : doc),
    get_announcements "2025-01-01T00:00:00" false sample_store_after_create =
      (inr anns, sample_store_after_create) /\
    In ann anns /\
    Forall (fun k =>
              is_Some ((<["id" := VStr "000000000000000000000002"]>
                          ann_picture_day) !! k) /\
              ann !! k =
                (<["id" := VStr "000000000000000000000002"]> ann_picture_day)
                  !! k)
      ["id"; "message"; "start_date"; "expiration_date"; "created_by"].
Proof.
  apply (create_then_list "2025-01-01T00:00:00" 2 "Picture day"
           (Some "2025-01-10T00:00:00") None "jdoe" sample_store).
  vm_compute. reflexivity.
Defined.

(** C2 (where the code departs from it). A create that succeeds stores the
    new record under the generated identifier, with [created_by] read from
    the [username] field of the caller's principal record, and returns it
    with that identifier under [id]; but the returned record still carries
    the store's key field [_id], which the list and update handlers
    remove. *)
Theorem create_returns_store_key (oid : N) (message : string)
    (expiration_date start_date : option string) (username : string)
    (st : store) (r : doc) (st' : store) :
  create_op oid message expiration_date start_date username st = (inr r, st') ->
  r !! "_id" = Some (VOid oid) /\
  r !! "id" = Some (VStr (str_of_oid oid)) /\
  r !! "message" = Some (VStr message) /\
  r !! "start_date" = Some (opt_value start_date) /\
  r !! "expiration_date" = VStr <$> expiration_date /\
  (exists u, In u (teachers_collection st) /\ has_id username u /\
             r !! "created_by" = u !! "username") /\
  (Some (VOid oid) ∉ keys (announcements_collection st)) /\
  announcements_collection st' =
    announcements_collection st ++ [delete "id" r].
Proof.
  intros H.
  destruct (create_op_inv _ _ _ _ _ _ _ _ H)
    as (u & cb & e & Hin & Hid & Hcb & -> & _ & Hfresh & -> & ->).
  destruct (new_announcement_lookup message start_date e cb)
    as (Hm & Hs & He & Hc & _ & Hnoid).
  assert (Hl : forall k, k <> "id" -> k <> "_id" ->
            (<["id" := VStr (str_of_oid oid)]>
               (<["_id" := VOid oid]>
                  (new_announcement message start_date e cb))) !! k =
            new_announcement message start_date e cb !! k).
  { intros k H1 H2. now rewrite !lookup_insert_ne by congruence. }
  split; [now rewrite lookup_insert_ne, lookup_insert_eq by congruence|].
  split; [apply lookup_insert_eq|].
  rewrite !Hl by congruence.
  split; [exact Hm|]. split; [exact Hs|]. split; [exact He|].
  split; [exists u; now rewrite Hc, Hcb|].
  split; [exact Hfresh|].
  cbn [announcements_collection].
  rewrite delete_insert_eq, delete_id; [reflexivity|].
  now rewrite lookup_insert_ne by congruence.
Qed.

Lemma create_returns_store_key_witness :
  let r := <["id" := VStr "000000000000000000000002"]> ann_picture_day in
  r !! "_id" = Some (VOid 2) /\
  r !! "id" = Some (VStr (str_of_oid 2)) /\
  r !! "message" = Some (VStr "Picture day") /\
  r !! "start_date" = Some (opt_value None) /\
  r !! "expiration_date" = VStr <$> Some "2025-01-10T00:00:00" /\
  (exists u, In u (teachers_collection sample_store) /\ has_id "jdoe" u /\
             r !! "created_by" = u !! "username") /\
  (Some (VOid 2) ∉ keys (announcements_collection sample_store)) /\
  announcements_collection sample_store_after_create =
    announcements_collection sample_store ++ [delete "id" r].
Proof.
  exact (create_returns_store_key 2 "Picture day" (Some "2025-01-10T00:00:00")
           None "jdoe" sample_store _ _ sample_create).
Defined.

(** ** What the operations keep *)

Lemma update_one_column (key : string) (q : query) (upd : doc) (c : list doc) :
  upd !! key = None ->
  List.map (fun d : doc => d !! key) (update_one q upd c).2 =
  List.map (fun d : doc => d !! key) c.
Proof.
  intros Hk. induction c as [|d c IH]; [reflexivity|].
  cbn [update_one]. destruct (matches q d).
  - cbn [snd List.map]. f_equal. now rewrite lookup_union_r.
  - destruct (update_one q upd c) as [n c'']. cbn [snd List.map] in *.
    now rewrite IH.
Qed.

Lemma delete_one_sublist (q : query) (c : list doc) :
  sublist (delete_one q c).2 c.
Proof.
  induction c as [|d c IH]; [constructor|].
  cbn [delete_one]. destruct (matches q d).
  - now apply sublist_cons.
  - destruct (delete_one q c) as [n c'']. now apply sublist_skip.
Qed.

(** The store an update leaves: the one it found, or that one after
    [update_one]. *)
Lemma update_op_announcements (announcement_id : string)
    (message expiration_date start_date : option string) (username : string)
    (st : store) :
  let upd : doc :=
    set_if_given "start_date" start_date
      (set_if_given "expiration_date" expiration_date
        (set_if_given "message" message ∅)) in
  let st' := (update_op announcement_id message expiration_date start_date
                username st).2 in
  teachers_collection st' = teachers_collection st /\
  (announcements_collection st' = announcements_collection st \/
   announcements_collection st' =
     (update_one (by_id announcement_id) upd (announcements_collection st)).2).
Proof.
  intros upd st'. subst st'. unfold update_op.
  destruct (Depends_require_auth_cases username
              (update_announcement announcement_id message expiration_date
                 start_date) st)
    as [[_ (u & _ & _ & E)]|[_ E]]; rewrite E; [|now split; [|left]].
  unfold update_announcement. fold upd.
  case_bool_decide; [now split; [|left]|].
  unfold bind, announcements_update_one, announcements_find_one.
  destruct (update_one (by_id announcement_id) upd
              (announcements_collection st)) as [n c] eqn:Eu.
  destruct (Nat.eqb n 0); [now split; [|right]|].
  cbn [announcements_collection]. destruct (find_one _ c); now split; [|right].
Qed.

Lemma delete_op_announcements (announcement_id : string) (username : string)
    (st : store) :
  let st' := (delete_op announcement_id username st).2 in
  teachers_collection st' = teachers_collection st /\
  (announcements_collection st' = announcements_collection st \/
   announcements_collection st' =
     (delete_one (by_id announcement_id) (announcements_collection st)).2).
Proof.
  intros st'. subst st'. unfold delete_op.
  destruct (Depends_require_auth_cases username
              (delete_announcement announcement_id) st)
    as [[_ (u & _ & _ & E)]|[_ E]]; rewrite E; [|now split; [|left]].
  unfold delete_announcement, bind, announcements_delete_one.
  destruct (delete_one (by_id announcement_id) (announcements_collection st))
    as [n c] eqn:Ed.
  destruct (Nat.eqb n 0); now split; [|right].
Qed.

(** A create that raises leaves the store as it was. *)
Lemma create_op_error (oid : N) (message : string)
    (expiration_date start_date : option string) (username : string)
    (st : store) (e : error) (st' : store) :
  create_op oid message expiration_date start_date username st = (inl e, st') ->
  st' = st.
Proof.
  unfold create_op.
  destruct (Depends_require_auth_cases username
              (create_announcement oid message expiration_date start_date) st)
    as [[_ (u & _ & _ & E)]|[_ E]]; rewrite E; [|now intros [= _ <-]].
  unfold create_announcement.
  destruct expiration_date as [[|a x]|];
    [now intros [= _ <-]| |now intros [= _ <-]].
  unfold bind, getitem. destruct (u !! "username"); [|now intros [= _ <-]].
  cbn [ret]. unfold announcements_insert_one.
  destruct (new_announcement _ _ _ _ !! "_id"); case_bool_decide;
    first [now intros [= _ <-] | discriminate].
Qed.

(** Every operation keeps the identifiers of the stored announcements
    distinct. *)
Lemma unique_keys_preserved (st : store) :
  unique_keys (announcements_collection st) ->
  (forall now active_only,
     unique_keys (announcements_collection
                    (get_announcements now active_only st).2)) /\
  (forall oid message expiration_date start_date username,
     unique_keys (announcements_collection
                    (create_op oid message expiration_date start_date
                       username st).2)) /\
  (forall announcement_id message expiration_date start_date username,
     unique_keys (announcements_collection
                    (update_op announcement_id message expiration_date
                       start_date username st).2)) /\
  (forall announcement_id username,
     unique_keys (announcements_collection
                    (delete_op announcement_id username st).2)).
Proof.
  unfold unique_keys. intros Hu. repeat split; intros *.
  - exact Hu.
  - destruct (create_op oid message expiration_date start_date username st)
      as [[e|r] st'] eqn:E; cbn [snd].
    + now rewrite (create_op_error _ _ _ _ _ _ _ _ E).
    + destruct (create_op_inv _ _ _ _ _ _ _ _ E)
        as (u & cb & x & _ & _ & _ & _ & _ & Hfresh & _ & ->).
      cbn [announcements_collection]. unfold keys in *.
      rewrite map_app. apply NoDup_app. split; [exact Hu|]. split.
      * intros k Hk. cbn [List.map]. rewrite lookup_insert_eq.
        intros Hk'%list_elem_of_singleton. now subst k.
      * apply NoDup_singleton.
  - destruct (update_op_announcements announcement_id message expiration_date
                start_date username st) as [_ [-> | ->]]; [exact Hu|].
    unfold keys. rewrite update_one_column; [exact Hu|].
    now rewrite update_lookup.
  - destruct (delete_op_announcements announcement_id username st)
      as [_ [-> | ->]]; [exact Hu|].
    eapply sublist_NoDup; [exact Hu|]. unfold keys.
    apply (fmap_sublist (fun d : doc => d !! "_id")), delete_one_sublist.
Qed.

(** ** The expiration date of stored records *)





(** ** Identifiers of created records *)

(** A record stored by create is keyed by an [ObjectId], while update and
    delete look for a key equal to the string they are given: unless some
    other record is keyed by that very string, neither finds the record
    under the [id] create returned. *)
Lemma created_record_not_matched_by_id (oid : N) (message : string)
    (expiration_date start_date : option string) (username : string)
    (st : store) (r : doc) (st' : store) (m : string) :
  create_op oid message expiration_date start_date username st = (inr r, st') ->
  (forall ann, In ann (announcements_collection st) ->
               ~ has_id (str_of_oid oid) ann) ->
  r !! "id" = Some (VStr (str_of_oid oid)) /\
  delete_op (str_of_oid oid) username st' =
    (inl (HTTPException 404 "Announcement not found"), st') /\
  update_op (str_of_oid oid) (Some m) None None username st' =
    (inl (HTTPException 404 "Announcement not found"), st').
Proof.
  intros E Hno.
  destruct (create_op_inv _ _ _ _ _ _ _ _ E)
    as (u & cb & x & Hin & Hid & _ & _ & _ & _ & -> & ->).
  set (c' := announcements_collection st ++ _).
  assert (Hno' : forall ann, In ann c' -> ~ has_id (str_of_oid oid) ann).
  { intros ann [H | [<- | []]]%in_app_or; [now apply Hno|].
    unfold has_id. now rewrite lookup_insert_eq. }
  assert (Hp : principal_exists username (Store (teachers_collection st) c'))
    by now exists u.
  split; [apply lookup_insert_eq|]. split.
  - unfold delete_op.
    destruct (Depends_require_auth_cases username
                (delete_announcement (str_of_oid oid))
                (Store (teachers_collection st) c'))
      as [[_ (u' & _ & _ & ->)]|[H _]]; [|contradiction].
    unfold delete_announcement, bind, announcements_delete_one.
    cbn [announcements_collection]. now rewrite delete_one_no_match.
  - unfold update_op.
    destruct (Depends_require_auth_cases username
                (update_announcement (str_of_oid oid) (Some m) None None)
                (Store (teachers_collection st) c'))
      as [[_ (u' & _ & _ & ->)]|[H _]]; [|contradiction].
    unfold update_announcement. cbn [set_if_given].
    rewrite bool_decide_eq_false_2 by apply insert_non_empty.
    unfold bind, announcements_update_one.
    cbn [announcements_collection]. now rewrite update_one_no_match.
Qed.

Lemma created_record_not_matched_by_id_witness :
  (<["id" := VStr "000000000000000000000002"]> ann_picture_day) !! "id" =
    Some (VStr (str_of_oid 2)) /\
  delete_op (str_of_oid 2) "jdoe" sample_store_after_create =
    (inl (HTTPException 404 "Announcement not found"),
     sample_store_after_create) /\
  update_op (str_of_oid 2) (Some "Moved") None None "jdoe"
    sample_store_after_create =
    (inl (HTTPException 404 "Announcement not found"),
     sample_store_after_create).
Proof.
  apply (created_record_not_matched_by_id 2 "Picture day"
           (Some "2025-01-10T00:00:00") None "jdoe" sample_store _ _ "Moved"
           sample_create).
  intros ann [<- | [<- | []]]; unfold has_id; now vm_compute.
Defined.

Lemma unique_keys_preserved_witness :
  (forall now active_only,
     unique_keys (announcements_collection
                    (get_announcements now active_only sample_store).2)) /\
  (forall oid message expiration_date start_date username,
     unique_keys (announcements_collection
                    (create_op oid message expiration_date start_date
                       username sample_store).2)) /\
  (forall announcement_id message expiration_date start_date username,
     unique_keys (announcements_collection
                    (update_op announcement_id message expiration_date
                       start_date username sample_store).2)) /\
  (forall announcement_id username,
     unique_keys (announcements_collection
                    (delete_op announcement_id username sample_store).2)).
Proof.
  apply (unique_keys_preserved sample_store).
  unfold unique_keys. apply (bool_decide_unpack _). vm_compute. exact I.
Defined.

(** ** Outcomes of update and delete, case by case *)

Lemma no_fields_dec (message expiration_date start_date : option string) :
  no_fields message expiration_date start_date \/
  ~ no_fields message expiration_date start_date.
Proof.
  unfold no_fields.
  destruct message, expiration_date, start_date;
    first [ now left | right; intros (? & ? & ?); discriminate ].
Qed.

Lemma update_fields_empty (message expiration_date start_date : option string) :
  update_fields message expiration_date start_date = ∅
  <-> no_fields message expiration_date start_date.
Proof. apply set_if_given_empty. Qed.

Lemma update_fields_key (message expiration_date start_date : option string) :
  update_fields message expiration_date start_date !! "_id" = None.
Proof. unfold update_fields. now rewrite update_lookup. Qed.

Lemma first_with_id_or_absent (k : string) (c : list doc) :
  id_absent k c \/ exists l1 ann l2, first_with_id k c l1 ann l2.
Proof.
  destruct (find_one (by_id k) c) as [ann|] eqn:E.
  - right. destruct (find_one_split _ _ _ E) as (l1 & l2 & Hc & Hl1).
    apply find_one_by_id_Some in E as [_ Hid].
    now exists l1, ann, l2.
  - left. exact (proj1 (find_one_by_id_None k c) E).
Qed.

Lemma first_with_id_not_absent (k : string) (c l1 l2 : list doc) (ann : doc) :
  first_with_id k c l1 ann l2 -> ~ id_absent k c.
Proof.
  intros (-> & _ & Hid) H. apply (H ann); [|exact Hid].
  apply in_or_app. right. now left.
Qed.

Lemma first_with_id_unique (k : string) (c l1 l1' l2 l2' : list doc)
    (ann ann' : doc) :
  first_with_id k c l1 ann l2 -> first_with_id k c l1' ann' l2' ->
  l1 = l1' /\ ann = ann' /\ l2 = l2'.
Proof.
  intros (-> & Hl1 & Hid) (Hc & Hl1' & Hid').
  revert l1' Hc Hl1'. induction l1 as [|d l1 IH]; intros [|d' l1'] Hc Hl1';
    cbn [app] in Hc; injection Hc as Hd Hc.
  - now subst.
  - subst d'. destruct (Hl1' ann); [now left | exact Hid].
  - subst d. destruct (Hl1 ann'); [now left | exact Hid'].
  - subst d'.
    destruct (IH (fun x H => Hl1 x (or_intror H)) l1' Hc
                (fun x H => Hl1' x (or_intror H))) as (-> & -> & ->).
    easy.
Qed.

Lemma delete_one_split (k : string) (l1 l2 : list doc) (ann : doc) :
  id_absent k l1 -> has_id k ann ->
  delete_one (by_id k) (l1 ++ ann :: l2) = (1, l1 ++ l2).
Proof.
  intros Hl1 Hid. induction l1 as [|d l1 IH]; cbn [app delete_one].
  - now rewrite (proj2 (matches_by_id k ann)).
  - rewrite (proj2 (matches_by_id_false k d)) by (apply Hl1; now left).
    rewrite IH; [reflexivity|]. intros d' Hin. apply Hl1. now right.
Qed.

Lemma update_announcement_no_fields (announcement_id : string)
    (message expiration_date start_date : option string) (user : doc)
    (st : store) :
  no_fields message expiration_date start_date ->
  update_announcement announcement_id message expiration_date start_date
    user st = (inl (HTTPException 400 "No update fields provided"), st).
Proof.
  intros H. apply update_fields_empty in H. unfold update_announcement.
  fold (update_fields message expiration_date start_date).
  now rewrite bool_decide_eq_true_2.
Qed.

Lemma update_announcement_absent (announcement_id : string)
    (message expiration_date start_date : option string) (user : doc)
    (st : store) :
  ~ no_fields message expiration_date start_date ->
  id_absent announcement_id (announcements_collection st) ->
  update_announcement announcement_id message expiration_date start_date
    user st = (inl (HTTPException 404 "Announcement not found"), st).
Proof.
  intros H Hno. rewrite <- update_fields_empty in H.
  unfold update_announcement.
  fold (update_fields message expiration_date start_date).
  rewrite bool_decide_eq_false_2 by exact H.
  unfold bind, announcements_update_one.
  rewrite update_one_no_match by exact Hno. cbn. now rewrite store_eta.
Qed.

Lemma update_announcement_first (announcement_id : string)
    (message expiration_date start_date : option string) (user : doc)
    (st : store) (l1 l2 : list doc) (ann : doc) :
  ~ no_fields message expiration_date start_date ->
  first_with_id announcement_id (announcements_collection st) l1 ann l2 ->
  let ann' := update_fields message expiration_date start_date ∪ ann in
  update_announcement announcement_id message expiration_date start_date
    user st =
    (inr (expose_id ann'), Store (teachers_collection st) (l1 ++ ann' :: l2)).
Proof.
  intros H (Hc & Hl1 & Hid) ann'. rewrite <- update_fields_empty in H.
  assert (Hid' : has_id announcement_id ann').
  { unfold has_id, ann'. rewrite lookup_union_r by apply update_fields_key.
    exact Hid. }
  unfold update_announcement.
  fold (update_fields message expiration_date start_date).
  rewrite bool_decide_eq_false_2 by exact H.
  unfold bind, announcements_update_one, announcements_find_one.
  rewrite Hc, update_one_split by assumption.
  cbn [Nat.eqb announcements_collection].
  now rewrite find_one_app by assumption.
Qed.

Lemma delete_announcement_absent (announcement_id : string) (user : doc)
    (st : store) :
  id_absent announcement_id (announcements_collection st) ->
  delete_announcement announcement_id user st =
    (inl (HTTPException 404 "Announcement not found"), st).
Proof.
  intros Hno. unfold delete_announcement, bind, announcements_delete_one.
  rewrite delete_one_no_match by exact Hno. cbn. now rewrite store_eta.
Qed.

Lemma delete_announcement_first (announcement_id : string) (user : doc)
    (st : store) (l1 l2 : list doc) (ann : doc) :
  first_with_id announcement_id (announcements_collection st) l1 ann l2 ->
  delete_announcement announcement_id user st =
    (inr {["message" := VStr "Announcement deleted"]},
     Store (teachers_collection st) (l1 ++ l2)).
Proof.
  intros (Hc & Hl1 & Hid).
  unfold delete_announcement, bind, announcements_delete_one.
  now rewrite Hc, delete_one_split by assumption.
Qed.

(** The four ways an update can go. *)
Lemma update_op_outcome (announcement_id : string)
    (message expiration_date start_date : option string) (username : string)
    (st : store) :
  let r := update_op announcement_id message expiration_date start_date
             username st in
  let c := announcements_collection st in
  (~ principal_exists username st /\ r = (inl unauthorized, st)) \/
  (principal_exists username st /\
   no_fields message expiration_date start_date /\
   r = (inl (HTTPException 400 "No update fields provided"), st)) \/
  (principal_exists username st /\
   ~ no_fields message expiration_date start_date /\
   id_absent announcement_id c /\
   r = (inl (HTTPException 404 "Announcement not found"), st)) \/
  (principal_exists username st /\
   ~ no_fields message expiration_date start_date /\
   exists l1 ann l2,
     first_with_id announcement_id c l1 ann l2 /\
     r = (inr (expose_id
                 (update_fields message expiration_date start_date ∪ ann)),
          Store (teachers_collection st)
            (l1 ++ (update_fields message expiration_date start_date ∪ ann)
                :: l2))).
Proof.
  intros r c. subst r c. unfold update_op.
  destruct (Depends_require_auth_cases username
              (update_announcement announcement_id message expiration_date
                 start_date) st)
    as [[Hp (u & _ & _ & E)]|[Hp E]]; rewrite E; [|now left].
  right. destruct (no_fields_dec message expiration_date start_date) as [H|H].
  { left. now rewrite update_announcement_no_fields. }
  right.
  destruct (first_with_id_or_absent announcement_id
              (announcements_collection st)) as [Hno|(l1 & ann & l2 & Hf)].
  - left. now rewrite update_announcement_absent.
  - right. split; [exact Hp|]. split; [exact H|]. exists l1, ann, l2.
    split; [exact Hf|].
    exact (update_announcement_first _ _ _ _ u st l1 l2 ann H Hf).
Qed.

(** The three ways a delete can go. *)
Lemma delete_op_outcome (announcement_id : string) (username : string)
    (st : store) :
  let r := delete_op announcement_id username st in
  let c := announcements_collection st in
  (~ principal_exists username st /\ r = (inl unauthorized, st)) \/
  (principal_exists username st /\ id_absent announcement_id c /\
   r = (inl (HTTPException 404 "Announcement not found"), st)) \/
  (principal_exists username st /\
   exists l1 ann l2,
     first_with_id announcement_id c l1 ann l2 /\
     r = (inr {["message" := VStr "Announcement deleted"]},
          Store (teachers_collection st) (l1 ++ l2))).
Proof.
  intros r c. subst r c. unfold delete_op.
  destruct (Depends_require_auth_cases username
              (delete_announcement announcement_id) st)
    as [[Hp (u & _ & _ & E)]|[Hp E]]; rewrite E; [|now left].
  right.
  destruct (first_with_id_or_absent announcement_id
              (announcements_collection st)) as [Hno|(l1 & ann & l2 & Hf)].
  - left. now rewrite delete_announcement_absent.
  - right. split; [exact Hp|]. exists l1, ann, l2.
    split; [exact Hf|].
    exact (delete_announcement_first _ u st l1 l2 ann Hf).
Qed.

Lemma returned_inl {A} (e : error) : ~ @returned A (inl e).
Proof. intros (a & H). discriminate H. Qed.

Lemma returned_inr {A} (a : A) : returned (inr a : error + A).
Proof. now exists a. Qed.

Ltac outcome_facts :=
  repeat match goal with
    | H : @returned _ (inl _) |- _ => now apply returned_inl in H
    | H : Some _ = Some _ |- _ => discriminate H
    | H : None = Some _ |- _ => discriminate H
    | H : first_with_id _ _ _ _ _ |- _ =>
        apply first_with_id_not_absent in H
    | H : _ /\ _ |- _ => destruct H
    | H : exists _, _ |- _ => destruct H
    end.

Ltac outcome_case :=
  cbn [fst snd status unauthorized];
  repeat match goal with
    | |- _ /\ _ => split
    | |- _ <-> _ => split
    | |- _ -> _ => intro
    end;
  outcome_facts;
  try reflexivity; try assumption; try contradiction;
  try apply returned_inr.

(** Update fails with 400 exactly when an authenticated caller supplies no
    field, with 404 exactly when an authenticated caller supplies a field
    and no stored record is keyed by the given string, and returns exactly
    when an authenticated caller supplies a field and such a record exists.
    It raises nothing else: the read-back after a matched update always
    finds the record. *)
Theorem update_outcomes (announcement_id : string)
    (message expiration_date start_date : option string) (username : string)
    (st : store) :
  let r := (update_op announcement_id message expiration_date start_date
              username st).1 in
  let c := announcements_collection st in
  (status r = Some 400 <->
   principal_exists username st /\
   no_fields message expiration_date start_date) /\
  (status r = Some 404 <->
   principal_exists username st /\
   ~ no_fields message expiration_date start_date /\
   id_absent announcement_id c) /\
  (returned r <->
   principal_exists username st /\
   ~ no_fields message expiration_date start_date /\
   ~ id_absent announcement_id c) /\
  (returned r \/ status r = Some 401 \/ status r = Some 400 \/
   status r = Some 404).
Proof.
  intros r c. subst r c.
  destruct (update_op_outcome announcement_id message expiration_date
              start_date username st)
    as [(Hp & ->)|[(Hp & Hn & ->)|[(Hp & Hn & Ha & ->)
        |(Hp & Hn & l1 & ann & l2 & Hf & ->)]]].
  - outcome_case. right. now left.
  - outcome_case. do 2 right. now left.
  - outcome_case. do 3 right. reflexivity.
  - outcome_case. left. apply returned_inr.
Qed.

(** Delete removes the first stored record keyed by the given string and
    nothing else, and returns the confirmation; it fails with 404 exactly
    when the caller is authenticated and no such record exists; whenever it
    does not return, the store is as it was. *)
Theorem delete_outcomes (announcement_id : string) (username : string)
    (st : store) :
  let r := delete_op announcement_id username st in
  let c := announcements_collection st in
  (status r.1 = Some 404 <->
   principal_exists username st /\ id_absent announcement_id c) /\
  (returned r.1 <->
   principal_exists username st /\
   exists l1 ann l2,
     first_with_id announcement_id c l1 ann l2 /\
     r = (inr {["message" := VStr "Announcement deleted"]},
          Store (teachers_collection st) (l1 ++ l2))) /\
  (returned r.1 \/ r.2 = st /\ (status r.1 = Some 401 \/ status r.1 = Some 404)).
Proof.
  intros r c. subst r c.
  destruct (delete_op_outcome announcement_id username st)
    as [(Hp & ->)|[(Hp & Ha & ->)|(Hp & l1 & ann & l2 & Hf & ->)]].
  - outcome_case. right. split; [reflexivity | now left].
  - outcome_case. right. split; [reflexivity | now right].
  - cbn [fst snd status]. split; [|split].
    + split; [intros H; discriminate H|].
      intros (_ & Ha). now destruct (first_with_id_not_absent _ _ _ _ _ Hf).
    + split; [|intros _; apply returned_inr].
      intros _. split; [exact Hp|]. now exists l1, ann, l2.
    + left. apply returned_inr.
Qed.

(** ** What no operation touches *)

Lemma create_op_teachers (oid : N) (message : string)
    (expiration_date start_date : option string) (username : string)
    (st : store) :
  teachers_collection
    (create_op oid message expiration_date start_date username st).2
  = teachers_collection st.
Proof.
  destruct (create_op oid message expiration_date start_date username st)
    as [[e|r] st'] eqn:E; cbn [snd].
  - now rewrite (create_op_error _ _ _ _ _ _ _ _ E).
  - now destruct (create_op_inv _ _ _ _ _ _ _ _ E)
      as (u & cb & x & _ & _ & _ & _ & _ & _ & _ & ->).
Qed.

(** No operation writes to the Principal Store. *)
Theorem principal_store_never_written (st : store) :
  (forall now active_only,
     teachers_collection (get_announcements now active_only st).2 =
     teachers_collection st) /\
  (forall oid message expiration_date start_date username,
     teachers_collection
       (create_op oid message expiration_date start_date username st).2 =
     teachers_collection st) /\
  (forall announcement_id message expiration_date start_date username,
     teachers_collection
       (update_op announcement_id message expiration_date start_date
          username st).2 =
     teachers_collection st) /\
  (forall announcement_id username,
     teachers_collection (delete_op announcement_id username st).2 =
     teachers_collection st).
Proof.
  split; [reflexivity|]. split; [intros; apply create_op_teachers|]. split.
  - intros. apply update_op_announcements.
  - intros. apply delete_op_announcements.
Qed.

(** ** Updates in a row *)

Lemma principal_exists_teachers (username : string) (st st' : store) :
  teachers_collection st' = teachers_collection st ->
  principal_exists username st -> principal_exists username st'.
Proof. unfold principal_exists. now intros ->. Qed.

Lemma update_op_authenticated (announcement_id : string)
    (message expiration_date start_date : option string) (username : string)
    (st : store) :
  principal_exists username st ->
  exists u,
    update_op announcement_id message expiration_date start_date username st =
    update_announcement announcement_id message expiration_date start_date
      u st.
Proof.
  intros Hp. unfold update_op.
  destruct (Depends_require_auth_cases username
              (update_announcement announcement_id message expiration_date
                 start_date) st)
    as [[_ (u & _ & _ & E)]|[H _]]; [|contradiction].
  now exists u.
Qed.

Lemma update_op_unauthenticated (announcement_id : string)
    (message expiration_date start_date : option string) (username : string)
    (st : store) :
  ~ principal_exists username st ->
  update_op announcement_id message expiration_date start_date username st =
    (inl unauthorized, st).
Proof.
  intros Hp. unfold update_op.
  destruct (Depends_require_auth_cases username
              (update_announcement announcement_id message expiration_date
                 start_date) st)
    as [[H _]|[_ E]]; [contradiction|exact E].
Qed.

Lemma first_with_id_updated (k : string) (c l1 l2 : list doc) (ann upd : doc) :
  upd !! "_id" = None ->
  first_with_id k c l1 ann l2 ->
  first_with_id k (l1 ++ (upd ∪ ann) :: l2) l1 (upd ∪ ann) l2.
Proof.
  intros Hk (_ & Hl1 & Hid). split; [reflexivity|]. split; [exact Hl1|].
  unfold has_id. now rewrite lookup_union_r.
Qed.

Lemma update_fields_later (mb eb sb ma ea sa : option string) :
  update_fields (later mb ma) (later eb ea) (later sb sa) =
  update_fields mb eb sb ∪ update_fields ma ea sa.
Proof.
  apply map_eq. intros k. unfold update_fields.
  rewrite lookup_union, !update_lookup. unfold supplied, later.
  repeat case_bool_decide;
    destruct mb, eb, sb, ma, ea, sa; reflexivity.
Qed.

Lemma later_none (b : option string) : later b None = b.
Proof. now destruct b. Qed.

Lemma no_fields_later (mb eb sb ma ea sa : option string) :
  no_fields (later mb ma) (later eb ea) (later sb sa) <->
  no_fields mb eb sb /\ no_fields ma ea sa.
Proof.
  unfold no_fields, later. destruct mb, eb, sb, ma, ea, sa;
    intuition discriminate.
Qed.

(** The store an authenticated update leaves, by what it was given. *)
Lemma update_op_store (announcement_id : string)
    (message expiration_date start_date : option string) (username : string)
    (st : store) :
  principal_exists username st ->
  (no_fields message expiration_date start_date \/
   id_absent announcement_id (announcements_collection st) ->
   (update_op announcement_id message expiration_date start_date
      username st).2 = st) /\
  (forall l1 ann l2,
     ~ no_fields message expiration_date start_date ->
     first_with_id announcement_id (announcements_collection st) l1 ann l2 ->
     update_op announcement_id message expiration_date start_date username st
     = (inr (expose_id
               (update_fields message expiration_date start_date ∪ ann)),
        Store (teachers_collection st)
          (l1 ++ (update_fields message expiration_date start_date ∪ ann)
              :: l2))).
Proof.
  intros Hp.
  destruct (update_op_authenticated announcement_id message expiration_date
              start_date username st Hp) as (u & ->).
  split.
  - intros [Hn | Ha].
    + now rewrite update_announcement_no_fields.
    + destruct (no_fields_dec message expiration_date start_date) as [Hn|Hn].
      * now rewrite update_announcement_no_fields.
      * now rewrite update_announcement_absent.
  - intros l1 ann l2 Hn Hf.
    exact (update_announcement_first _ _ _ _ u st l1 l2 ann Hn Hf).
Qed.

(** Repeating an update changes nothing more: run again on the store it
    left, the same update gives the same outcome and leaves that store as
    it is. *)
Theorem update_idempotent (announcement_id : string)
    (message expiration_date start_date : option string) (username : string)
    (st : store) :
  update_op announcement_id message expiration_date start_date username
    (update_op announcement_id message expiration_date start_date
       username st).2
  = update_op announcement_id message expiration_date start_date username st.
Proof.
  destruct (update_op_outcome announcement_id message expiration_date
              start_date username st)
    as [(_ & E)|[(_ & _ & E)|[(_ & _ & _ & E)
        |(Hp & Hn & l1 & ann & l2 & Hf & E)]]];
    rewrite E; cbn [snd]; try exact E.
  set (upd := update_fields message expiration_date start_date) in *.
  set (st1 := Store (teachers_collection st) (l1 ++ (upd ∪ ann) :: l2)).
  assert (Hp1 : principal_exists username st1) by exact Hp.
  destruct (update_op_store announcement_id message expiration_date
              start_date username st1 Hp1) as [_ H1].
  rewrite (H1 l1 (upd ∪ ann) l2 Hn).
  - fold upd. cbn [st1 teachers_collection].
    now rewrite (map_union_assoc upd upd ann), (map_union_idemp upd).
  - eapply first_with_id_updated; [apply update_fields_key | exact Hf].
Qed.

(** Two updates of one identifier in a row leave the store that a single
    update leaves when it is given, field by field, the later of the two
    supplied values. *)
Theorem update_twice (announcement_id : string)
    (ma ea sa mb eb sb : option string) (username : string) (st : store) :
  (update_op announcement_id mb eb sb username
     (update_op announcement_id ma ea sa username st).2).2
  = (update_op announcement_id (later mb ma) (later eb ea) (later sb sa)
       username st).2.
Proof.
  destruct (update_op_outcome announcement_id ma ea sa username st)
    as [(Hp & E)|[(Hp & Hn & E)|[(Hp & Hn & Ha & E)
        |(Hp & Hn & l1 & ann & l2 & Hf & E)]]];
    rewrite E; cbn [snd]; clear E.
  - now rewrite !update_op_unauthenticated.
  - destruct Hn as (-> & -> & ->). now rewrite !later_none.
  - assert (Hn' : ~ no_fields (later mb ma) (later eb ea) (later sb sa)).
    { rewrite no_fields_later. now intros [_ H]. }
    rewrite (proj1 (update_op_store announcement_id mb eb sb username st Hp))
      by now right.
    rewrite (proj1 (update_op_store announcement_id (later mb ma)
                      (later eb ea) (later sb sa) username st Hp))
      by now right.
    reflexivity.
  - assert (Hn' : ~ no_fields (later mb ma) (later eb ea) (later sb sa)).
    { rewrite no_fields_later. now intros [_ H]. }
    destruct (update_op_store announcement_id (later mb ma) (later eb ea)
                (later sb sa) username st Hp) as [_ H].
    rewrite (H l1 ann l2 Hn' Hf). clear H. cbn [snd].
    set (st1 := Store (teachers_collection st)
                  (l1 ++ (update_fields ma ea sa ∪ ann) :: l2)).
    assert (Hp1 : principal_exists username st1) by exact Hp.
    destruct (update_op_store announcement_id mb eb sb username st1 Hp1)
      as [H0 H1].
    destruct (no_fields_dec mb eb sb) as [Hb|Hb].
    + rewrite H0 by now left. destruct Hb as (-> & -> & ->). reflexivity.
    + rewrite (H1 l1 (update_fields ma ea sa ∪ ann) l2 Hb).
      * cbn [snd st1 teachers_collection].
        now rewrite update_fields_later, map_union_assoc.
      * eapply first_with_id_updated; [apply update_fields_key | exact Hf].
Qed.

Lemma column_app (key : string) (l1 l2 : list doc) :
  column key (l1 ++ l2) = column key l1 ++ column key l2.
Proof. apply map_app. Qed.

(** Whatever its arguments and whoever calls, an update adds and removes no
    record (it never inserts when nothing matches), rewrites at most the
    first record keyed by the given string, and leaves in every record the
    key [_id], [created_by] and every other field it was not given. *)
Theorem update_frame (announcement_id : string)
    (message expiration_date start_date : option string) (username : string)
    (st : store) :
  let c := announcements_collection st in
  let c' := announcements_collection
              (update_op announcement_id message expiration_date start_date
                 username st).2 in
  length c' = length c /\
  column "_id" c' = column "_id" c /\
  column "created_by" c' = column "created_by" c /\
  (forall k, supplied message expiration_date start_date k = None ->
             column k c' = column k c) /\
  (c' = c \/
   exists l1 ann l2,
     first_with_id announcement_id c l1 ann l2 /\
     c' = l1 ++ (update_fields message expiration_date start_date ∪ ann)
             :: l2).
Proof.
  intros c c'. subst c c'.
  assert (Hcol : forall k,
            supplied message expiration_date start_date k = None ->
            column k (announcements_collection
                        (update_op announcement_id message expiration_date
                           start_date username st).2) =
            column k (announcements_collection st)).
  { intros k Hk.
    destruct (update_op_announcements announcement_id message expiration_date
                start_date username st) as [_ [-> | ->]]; [reflexivity|].
    apply update_one_column. now rewrite update_lookup, Hk. }
  split; [|split; [now apply Hcol|split; [now apply Hcol|split; [exact Hcol|]]]].
  - pose proof (Hcol "_id" eq_refl) as H.
    apply (f_equal (@length _)) in H. unfold column in H.
    now rewrite !length_map in H.
  - destruct (update_op_outcome announcement_id message expiration_date
                start_date username st)
      as [(_ & ->)|[(_ & _ & ->)|[(_ & _ & _ & ->)
          |(_ & _ & l1 & ann & l2 & Hf & ->)]]]; cbn [snd];
      [now left | now left | now left|].
    right. now exists l1, ann, l2.
Qed.

(** After an update that returns, an unfiltered list holds the record the
    update returned. *)
Theorem update_then_list (now : string) (announcement_id : string)
    (message expiration_date start_date : option string) (username : string)
    (st : store) (r : doc) (st' : store) :
  update_op announcement_id message expiration_date start_date username st
    = (inr r, st') ->
  exists anns, get_announcements now false st' = (inr anns, st') /\ In r anns.
Proof.
  intros E. rewrite get_announcements_all. eexists. split; [reflexivity|].
  destruct (update_op_outcome announcement_id message expiration_date
              start_date username st)
    as [(_ & E')|[(_ & _ & E')|[(_ & _ & _ & E')
        |(_ & _ & l1 & ann & l2 & _ & E')]]];
    rewrite E' in E; try discriminate E.
  injection E as <- <-. cbn [announcements_collection].
  apply in_map, in_or_app. right. now left.
Qed.

Lemma update_then_list_witness :
  exists anns,
    get_announcements "2025-01-01T00:00:00" false
      (update_op "welcome" (Some "Welcome back") None None "jdoe"
         sample_store).2
    = (inr anns,
       (update_op "welcome" (Some "Welcome back") None None "jdoe"
          sample_store).2) /\
    In (expose_id (update_fields (Some "Welcome back") None None ∪ ann_welcome))
       anns.
Proof.
  apply (update_then_list "2025-01-01T00:00:00" "welcome"
           (Some "Welcome back") None None "jdoe" sample_store).
  vm_compute. reflexivity.
Defined.

(** Update and delete do not look at who the caller is beyond the
    authentication check: any two authenticated callers get the same
    outcome and leave the same store, whoever created the record. *)
Theorem any_principal_may_update_or_delete (u1 u2 : string) (st : store) :
  principal_exists u1 st -> principal_exists u2 st ->
  (forall announcement_id message expiration_date start_date,
     update_op announcement_id message expiration_date start_date u1 st =
     update_op announcement_id message expiration_date start_date u2 st) /\
  (forall announcement_id,
     delete_op announcement_id u1 st = delete_op announcement_id u2 st).
Proof.
  intros H1 H2. split.
  - intros announcement_id message expiration_date start_date.
    destruct (update_op_authenticated announcement_id message expiration_date
                start_date u1 st H1) as (x1 & ->).
    destruct (update_op_authenticated announcement_id message expiration_date
                start_date u2 st H2) as (x2 & ->).
    reflexivity.
  - intros announcement_id. unfold delete_op.
    destruct (Depends_require_auth_cases u1
                (delete_announcement announcement_id) st)
      as [[_ (x1 & _ & _ & ->)]|[H _]]; [|contradiction].
    destruct (Depends_require_auth_cases u2
                (delete_announcement announcement_id) st)
      as [[_ (x2 & _ & _ & ->)]|[H _]]; [|contradiction].
    reflexivity.
Qed.

Lemma any_principal_may_update_or_delete_witness :
  (forall announcement_id message expiration_date start_date,
     update_op announcement_id message expiration_date start_date "jdoe"
       staff_store =
     update_op announcement_id message expiration_date start_date "guest"
       staff_store) /\
  (forall announcement_id,
     delete_op announcement_id "jdoe" staff_store =
     delete_op announcement_id "guest" staff_store).
Proof.
  apply (any_principal_may_update_or_delete "jdoe" "guest" staff_store).
  - exists jdoe. split; [now left | reflexivity].
  - exists guest. split; [right; right; now left | reflexivity].
Defined.

(** ** The principal behind a call *)

Lemma require_auth_first (username : string) (st : store) (l1 l2 : list doc)
    (u : doc) :
  first_with_id username (teachers_collection st) l1 u l2 ->
  require_auth username st = (inr u, st).
Proof.
  intros (Hc & Hl1 & Hid). unfold require_auth, bind, teachers_find_one.
  rewrite Hc, find_one_app by assumption.
  rewrite bool_decide_eq_false_2; [reflexivity|].
  intros ->. unfold has_id in Hid. now rewrite lookup_empty in Hid.
Qed.

(** [require_auth] returns the first record of the Principal Store keyed by
    the given string, whatever else that record holds, and raises the
    authentication error when there is none; it leaves the store as it
    is. *)
Theorem require_auth_returns_first_principal (username : string) (st : store) :
  (id_absent username (teachers_collection st) /\
   require_auth username st = (inl unauthorized, st)) \/
  (exists l1 u l2,
     first_with_id username (teachers_collection st) l1 u l2 /\
     require_auth username st = (inr u, st)).
Proof.
  destruct (first_with_id_or_absent username (teachers_collection st))
    as [Ha|(l1 & u & l2 & Hf)].
  - left. split; [exact Ha|].
    destruct (require_auth_cases username st) as [[(u & Hin & Hid) _]|[_ E]];
      [now destruct (Ha u Hin) | exact E].
  - right. exists l1, u, l2. split; [exact Hf|].
    now apply (require_auth_first username st l1 l2 u).
Qed.

(** A create by the caller whose principal record is [u], case by case. *)
Lemma create_op_first (oid : N) (message : string)
    (expiration_date start_date : option string) (username : string)
    (st : store) (l1 l2 : list doc) (u : doc) :
  first_with_id username (teachers_collection st) l1 u l2 ->
  create_op oid message expiration_date start_date username st =
  match expiration_date with
  | None | Some "" =>
      (inl (HTTPException 400 "Expiration date required"), st)
  | Some e =>
      match u !! "username" with
      | None => (inl (KeyError "username"), st)
      | Some created_by =>
          let stored := <["_id" := VOid oid]>
                          (new_announcement message start_date e created_by) in
          if bool_decide (Some (VOid oid) ∈ keys (announcements_collection st))
          then (inl DuplicateKeyError, st)
          else (inr (<["id" := VStr (str_of_oid oid)]> stored),
                Store (teachers_collection st)
                  (announcements_collection st ++ [stored]))
      end
  end.
Proof.
  intros Hf. unfold create_op, Depends_require_auth, bind.
  rewrite (require_auth_first username st l1 l2 u Hf).
  unfold create_announcement.
  destruct expiration_date as [[|a e]|]; [reflexivity| |reflexivity].
  unfold bind, getitem. destruct (u !! "username") as [cb|]; [|reflexivity].
  cbn [ret]. unfold announcements_insert_one.
  destruct (new_announcement_lookup message start_date (String a e) cb)
    as (_ & _ & _ & _ & Hnone & _).
  rewrite Hnone, lookup_insert_eq. cbn zeta.
  case_bool_decide; reflexivity.
Qed.

Ltac settle_outcome :=
  cbn [fst snd status];
  repeat match goal with
    | |- _ /\ _ => split
    | |- _ <-> _ => split
    | |- forall _, _ => intro
    end;
  repeat match goal with
    | H : _ /\ _ |- _ => destruct H
    | H : exists _, _ |- _ => destruct H
    | H : _ \/ _ |- _ => destruct H
    | H : is_Some None |- _ => now destruct H
    | H : @returned _ (inl _) |- _ => now apply returned_inl in H
    end;
  try congruence; try contradiction; try (now left); try (now right);
  try apply returned_inr; try (now eexists).

Lemma staff_guest_first :
  first_with_id "guest" (teachers_collection staff_store) [jdoe; asmith]
    guest [].
Proof.
  split; [reflexivity|]. split; [|reflexivity].
  intros d [<- | [<- | []]]; unfold has_id; now vm_compute.
Qed.

(** ** Listing active announcements *)

Lemma ascii_compare_refl (a : ascii) : Ascii.compare a a = Eq.
Proof. apply N.compare_refl. Qed.

Lemma ascii_compare_lt_trans (a b c : ascii) :
  Ascii.compare a b = Lt -> Ascii.compare b c = Lt -> Ascii.compare a c = Lt.
Proof.
  unfold Ascii.compare. rewrite !N.compare_lt_iff. apply N.lt_trans.
Qed.

Lemma string_compare_refl (s : string) : String.compare s s = Eq.
Proof.
  induction s as [|a s IH]; [reflexivity|].
  cbn [String.compare]. now rewrite ascii_compare_refl.
Qed.

Lemma str_le_refl (s : string) : str_le s s.
Proof. unfold str_le, String.leb. now rewrite string_compare_refl. Qed.

Lemma string_compare_not_gt_trans (a b c : string) :
  String.compare a b <> Gt -> String.compare b c <> Gt ->
  String.compare a c <> Gt.
Proof.
  revert b c. induction a as [|x a IH]; intros [|y b] [|z c];
    cbn [String.compare]; try congruence.
  destruct (Ascii.compare x y) eqn:Exy; [|  |congruence].
  - apply Ascii.compare_eq_iff in Exy as ->.
    destruct (Ascii.compare y z); [apply IH | congruence | congruence].
  - destruct (Ascii.compare y z) eqn:Eyz; [| |congruence].
    + apply Ascii.compare_eq_iff in Eyz as <-. rewrite Exy. congruence.
    + rewrite (ascii_compare_lt_trans x y z Exy Eyz). congruence.
Qed.

Lemma str_le_trans (a b c : string) : str_le a b -> str_le b c -> str_le a c.
Proof.
  unfold str_le, String.leb. intros Hab Hbc.
  pose proof (string_compare_not_gt_trans a b c) as H.
  destruct (String.compare a b), (String.compare b c),
    (String.compare a c); try reflexivity; try discriminate;
    exfalso; apply H; congruence.
Qed.

Lemma find_active_in (now : string) (c : list doc) (ann : doc) :
  In ann (find (active_query now) c) <-> In ann c /\ is_active now ann.
Proof.
  unfold find. rewrite filter_In. now rewrite matches_active.
Qed.

(** The active listing only leaves records out: what [active_only] returns
    is the unfiltered listing with some records removed, the others in the
    same order. *)
Theorem active_listing_is_sublist (now : string) (st : store) :
  exists active all : list doc,
    get_announcements now true st = (inr active, st) /\
    get_announcements now false st = (inr all, st) /\
    sublist active all.
Proof.
  rewrite get_announcements_active, get_announcements_all.
  do 2 eexists. split; [reflexivity|]. split; [reflexivity|].
  apply (fmap_sublist expose_id), sublist_filter.
Qed.

(** The window of an announcement is an interval of the lexical order on
    timestamps: a record that the active filter selects at two times is
    selected at every time between them. *)
Theorem active_between (now1 now now2 : string) (c : list doc) (ann : doc) :
  str_le now1 now -> str_le now now2 ->
  In ann (find (active_query now1) c) ->
  In ann (find (active_query now2) c) ->
  In ann (find (active_query now) c).
Proof.
  rewrite !find_active_in. unfold is_active.
  intros H1 H2 (Hin & Hs1 & _) (_ & _ & He2). split; [exact Hin|].
  destruct (ann !! "start_date") as [[|s|o]|],
    (ann !! "expiration_date") as [[|e|o']|]; try easy.
  all: split; try exact I; eauto using str_le_trans.
Qed.

Lemma active_between_witness :
  In ann_welcome
    (find (active_query "2025-03-01T00:00:00")
       (announcements_collection sample_store)).
Proof.
  apply (active_between "2025-01-01T00:00:00" "2025-03-01T00:00:00"
           "2025-06-01T00:00:00").
  - reflexivity.
  - reflexivity.
  - vm_compute. now left.
  - vm_compute. now left.
Defined.

(** Both ends of the window are inclusive: a stored record whose
    [start_date] and [expiration_date] both equal the timestamp of the call
    is selected by the active filter. *)
Theorem active_bounds_inclusive (now : string) (c : list doc) (ann : doc) :
  In ann c ->
  ann !! "start_date" = Some (VStr now) ->
  ann !! "expiration_date" = Some (VStr now) ->
  In ann (find (active_query now) c).
Proof.
  intros Hin Hs He. rewrite find_active_in. unfold is_active.
  rewrite Hs, He. split; [exact Hin|]. split; apply str_le_refl.
Qed.

Lemma active_bounds_inclusive_witness :
  In (<["expiration_date" := VStr "2025-01-10T00:00:00"]>
        ({["start_date" := VStr "2025-01-10T00:00:00"]} : doc))
     (find (active_query "2025-01-10T00:00:00")
        [<["expiration_date" := VStr "2025-01-10T00:00:00"]>
           ({["start_date" := VStr "2025-01-10T00:00:00"]} : doc)]).
Proof.
  apply (active_bounds_inclusive "2025-01-10T00:00:00").
  - now left.
  - reflexivity.
  - reflexivity.
Defined.

(** A record whose [start_date] is lexically after its [expiration_date]
    is never selected by the active filter, at any time. *)
Theorem inverted_window_never_active (s e : string) (ann : doc) :
  ann !! "start_date" = Some (VStr s) ->
  ann !! "expiration_date" = Some (VStr e) ->
  ~ str_le s e ->
  forall now c, ~ In ann (find (active_query now) c).
Proof.
  intros Hs He Hse now c. rewrite find_active_in. unfold is_active.
  rewrite Hs, He. intros (_ & H1 & H2). apply Hse.
  exact (str_le_trans s now e H1 H2).
Qed.

Lemma inverted_window_never_active_witness :
  ~ In (<["expiration_date" := VStr "2025-01-10T00:00:00"]>
          ({["start_date" := VStr "2025-02-01T00:00:00"]} : doc))
       (find (active_query "2025-01-20T00:00:00")
          [<["expiration_date" := VStr "2025-01-10T00:00:00"]>
             ({["start_date" := VStr "2025-02-01T00:00:00"]} : doc)]).
Proof.
  apply (inverted_window_never_active "2025-02-01T00:00:00"
           "2025-01-10T00:00:00").
  - reflexivity.
  - reflexivity.
  - unfold str_le. vm_compute. discriminate.
Defined.

(** ** The invariant on expiration dates *)

Lemma has_expiration_updated (message expiration_date start_date : option string)
    (ann : doc) :
  expiration_date <> Some "" ->
  has_expiration ann ->
  has_expiration (update_fields message expiration_date start_date ∪ ann).
Proof.
  intros Hne (e & He & Hnz). unfold has_expiration, update_fields.
  rewrite set_fields_lookup. unfold supplied. cbn.
  destruct expiration_date as [x|].
  - exists x. split; [reflexivity|]. congruence.
  - now exists e.
Qed.

(** That every stored record has a non-empty [expiration_date] is kept by
    listing, by create, by delete, and by every update that is not given
    the empty string as [expiration_date]. *)
Theorem expiration_invariant_preserved (st : store) :
  Forall has_expiration (announcements_collection st) ->
  (forall now active_only,
     Forall has_expiration
       (announcements_collection (get_announcements now active_only st).2)) /\
  (forall oid message expiration_date start_date username,
     Forall has_expiration
       (announcements_collection
          (create_op oid message expiration_date start_date username st).2)) /\
  (forall announcement_id message expiration_date start_date username,
     expiration_date <> Some "" ->
     Forall has_expiration
       (announcements_collection
          (update_op announcement_id message expiration_date start_date
             username st).2)) /\
  (forall announcement_id username,
     Forall has_expiration
       (announcements_collection (delete_op announcement_id username st).2)).
Proof.
  intros Hinv. split; [intros; exact Hinv|]. split; [|split].
  - intros oid message expiration_date start_date username.
    destruct (create_op oid message expiration_date start_date username st)
      as [[e|r] st'] eqn:E; cbn [snd].
    + now rewrite (create_op_error _ _ _ _ _ _ _ _ E).
    + destruct (create_op_inv _ _ _ _ _ _ _ _ E)
        as (u & cb & x & _ & _ & _ & _ & Hx & _ & _ & ->).
      cbn [announcements_collection]. apply Forall_app. split; [exact Hinv|].
      apply Forall_singleton. exists x. split; [|exact Hx].
      rewrite lookup_insert_ne by congruence. apply new_announcement_lookup.
  - intros announcement_id message expiration_date start_date username Hne.
    destruct (update_op_outcome announcement_id message expiration_date
                start_date username st)
      as [(_ & ->)|[(_ & _ & ->)|[(_ & _ & _ & ->)
          |(_ & _ & l1 & ann & l2 & (Hc & _ & _) & ->)]]]; cbn [snd];
      try exact Hinv.
    cbn [announcements_collection]. rewrite Hc in Hinv.
    apply Forall_app in Hinv as [H1 H2]. apply Forall_cons in H2 as [Ha H2].
    apply Forall_app. split; [exact H1|]. apply Forall_cons.
    split; [|exact H2]. now apply has_expiration_updated.
  - intros announcement_id username.
    destruct (delete_op_outcome announcement_id username st)
      as [(_ & ->)|[(_ & _ & ->)|(_ & l1 & ann & l2 & (Hc & _ & _) & ->)]];
      cbn [snd]; try exact Hinv.
    cbn [announcements_collection]. rewrite Hc in Hinv.
    apply Forall_app in Hinv as [H1 H2]. apply Forall_cons in H2 as [_ H2].
    apply Forall_app. now split.
Qed.

Lemma sample_has_expiration :
  Forall has_expiration (announcements_collection sample_store).
Proof.
  repeat (apply Forall_cons_2 || apply Forall_nil_2);
    eexists; (split; [reflexivity | discriminate]).
Qed.

Lemma expiration_invariant_preserved_witness :
  (forall now active_only,
     Forall has_expiration
       (announcements_collection
          (get_announcements now active_only sample_store).2)) /\
  (forall oid message expiration_date start_date username,
     Forall has_expiration
       (announcements_collection
          (create_op oid message expiration_date start_date username
             sample_store).2)) /\
  (forall announcement_id message expiration_date start_date username,
     expiration_date <> Some "" ->
     Forall has_expiration
       (announcements_collection
          (update_op announcement_id message expiration_date start_date
             username sample_store).2)) /\
  (forall announcement_id username,
     Forall has_expiration
       (announcements_collection
          (delete_op announcement_id username sample_store).2)).
Proof.
  exact (expiration_invariant_preserved sample_store sample_has_expiration).
Defined.

(** ** Records the handlers create, and the identifiers they answer to *)

Lemma oid_keyed_absent (k : string) (c : list doc) :
  oid_keyed c -> id_absent k c.
Proof.
  unfold oid_keyed. rewrite List.Forall_forall.
  intros H d Hin Hid. destruct (H d Hin) as (o & Ho).
  unfold has_id in Hid. congruence.
Qed.

Lemma oid_keyed_serve (st : store) (req : request) :
  oid_keyed (announcements_collection st) ->
  oid_keyed (announcements_collection (serve st req)).
Proof.
  intros Hk. destruct req as [now active_only
                             |oid message expiration_date start_date username
                             |k message expiration_date start_date username
                             |k username]; cbn [serve].
  - exact Hk.
  - destruct (create_op oid message expiration_date start_date username st)
      as [[e|r] st'] eqn:E; cbn [snd].
    + now rewrite (create_op_error _ _ _ _ _ _ _ _ E).
    + destruct (create_op_inv _ _ _ _ _ _ _ _ E)
        as (u & cb & x & _ & _ & _ & _ & _ & _ & _ & ->).
      cbn [announcements_collection]. apply Forall_app. split; [exact Hk|].
      apply Forall_singleton. exists oid. apply lookup_insert_eq.
  - destruct (update_op_outcome k message expiration_date start_date
                username st)
      as [(_ & ->)|[(_ & _ & ->)|[(_ & _ & _ & ->)
          |(_ & _ & l1 & ann & l2 & Hf & _)]]]; cbn [snd]; try exact Hk.
    now destruct (first_with_id_not_absent _ _ _ _ _ Hf
                    (oid_keyed_absent k _ Hk)).
  - destruct (delete_op_outcome k username st)
      as [(_ & ->)|[(_ & _ & ->)|(_ & l1 & ann & l2 & Hf & _)]];
      cbn [snd]; try exact Hk.
    now destruct (first_with_id_not_absent _ _ _ _ _ Hf
                    (oid_keyed_absent k _ Hk)).
Qed.

(** Every record of a store the handlers built is keyed by an [ObjectId]:
    create is the only handler that inserts, and it never sets [_id]
    itself. *)
Lemma built_by_handlers_oid_keyed (teachers : list doc) (st : store) :
  built_by_handlers teachers st ->
  oid_keyed (announcements_collection st).
Proof.
  intros (reqs & ->).
  assert (H : forall st0, oid_keyed (announcements_collection st0) ->
                          oid_keyed (announcements_collection
                                       (fold_left serve reqs st0))).
  { induction reqs as [|req reqs IH]; intros st0 H0; [exact H0|].
    cbn [fold_left]. apply IH, oid_keyed_serve, H0. }
  apply H. constructor.
Qed.

Lemma picture_day_store_built : built_by_handlers [jdoe] picture_day_store.
Proof.
  exists [ReqCreate 2 "Picture day" (Some "2025-01-10T00:00:00") None "jdoe"].
  vm_compute. reflexivity.
Qed.

Lemma picture_day_principal : principal_exists "jdoe" picture_day_store.
Proof. exists jdoe. split; [now left | reflexivity]. Qed.

(** C4 (where the code departs from it). On every store the handlers have
    built, an update by an authenticated caller that supplies a field
    answers 404 and changes nothing, whatever identifier it is given: the
    records create stores are keyed by an [ObjectId], the filter compares
    [_id] with the string [announcement_id], and so no update ever reaches
    a record, the identifiers that list and create hand out included. *)
Theorem update_never_finds_created_records (teachers : list doc) (st : store)
    (announcement_id : string)
    (message expiration_date start_date : option string) (username : string) :
  built_by_handlers teachers st ->
  principal_exists username st ->
  ~ no_fields message expiration_date start_date ->
  update_op announcement_id message expiration_date start_date username st =
    (inl (HTTPException 404 "Announcement not found"), st).
Proof.
  intros Hb Hp Hn.
  pose proof (oid_keyed_absent announcement_id _
                (built_by_handlers_oid_keyed teachers st Hb)) as Ha.
  destruct (update_op_authenticated announcement_id message expiration_date
              start_date username st Hp) as (u & ->).
  now apply update_announcement_absent.
Qed.

Lemma update_never_finds_created_records_witness :
  get_announcements "2025-01-01T00:00:00" false picture_day_store =
    (inr [expose_id ann_picture_day], picture_day_store) /\
  expose_id ann_picture_day !! "id" =
    Some (VStr "000000000000000000000002") /\
  update_op "000000000000000000000002" (Some "Moved") None None "jdoe"
    picture_day_store =
    (inl (HTTPException 404 "Announcement not found"), picture_day_store).
Proof.
  split; [vm_compute; reflexivity|]. split; [vm_compute; reflexivity|].
  apply (update_never_finds_created_records [jdoe] picture_day_store
           "000000000000000000000002" (Some "Moved") None None "jdoe"
           picture_day_store_built picture_day_principal).
  intros (H & _). discriminate H.
Defined.

(** C7 (where the code departs from it). On every store the handlers have
    built, a delete by an authenticated caller answers 404 and removes
    nothing, whatever identifier it is given: no delete ever succeeds, not
    the first one either, for the identifier of a record that list shows. *)
Theorem delete_never_finds_created_records (teachers : list doc) (st : store)
    (announcement_id : string) (username : string) :
  built_by_handlers teachers st ->
  principal_exists username st ->
  delete_op announcement_id username st =
    (inl (HTTPException 404 "Announcement not found"), st).
Proof.
  intros Hb Hp.
  pose proof (oid_keyed_absent announcement_id _
                (built_by_handlers_oid_keyed teachers st Hb)) as Ha.
  unfold delete_op.
  destruct (Depends_require_auth_cases username
              (delete_announcement announcement_id) st)
    as [[_ (u & _ & _ & ->)]|[H _]]; [|contradiction].
  now apply delete_announcement_absent.
Qed.

Lemma delete_never_finds_created_records_witness :
  get_announcements "2025-01-01T00:00:00" false picture_day_store =
    (inr [expose_id ann_picture_day], picture_day_store) /\
  expose_id ann_picture_day !! "id" =
    Some (VStr "000000000000000000000002") /\
  delete_op "000000000000000000000002" "jdoe" picture_day_store =
    (inl (HTTPException 404 "Announcement not found"), picture_day_store).
Proof.
  split; [vm_compute; reflexivity|]. split; [vm_compute; reflexivity|].
  exact (delete_never_finds_created_records [jdoe] picture_day_store
           "000000000000000000000002" "jdoe"
           picture_day_store_built picture_day_principal).
Defined.

(** ** Requests as the framework serves them *)

Lemma create_route_unauthenticated (oid : N)
    (message expiration_date start_date : option string) (username : string)
    (st : store) :
  ~ principal_exists username st ->
  create_route oid message expiration_date start_date (Some username) st =
    (Raised unauthorized, st).
Proof.
  intros Hp. unfold create_route.
  destruct (require_auth_cases username st) as [[H _]|[_ ->]];
    [contradiction | reflexivity].
Qed.

Lemma create_route_authenticated (oid : N)
    (message expiration_date start_date : option string) (username : string)
    (st : store) :
  principal_exists username st ->
  create_route oid message expiration_date start_date (Some username) st =
  match message, expiration_date with
  | Some m, Some e =>
      respond (create_op oid m (Some e) start_date username st)
  | _, _ => (Unprocessable, st)
  end.
Proof.
  intros Hp. unfold create_route, create_op, Depends_require_auth, bind.
  destruct (require_auth_cases username st)
    as [[_ (u & -> & _ & _)]|[H _]]; [|contradiction].
  reflexivity.
Qed.

Lemma respond_store (r : (error + doc) * store) : (respond r).2 = r.2.
Proof.
  destruct r as [[e|d] st]; cbn [respond]; [reflexivity|].
  now case_bool_decide.
Qed.

Lemma respond_raised (e : error) (st : store) :
  respond (inl e, st) = (Raised e, st).
Proof. reflexivity. Qed.

Lemma respond_cases (r : (error + doc) * store) :
  (exists e, r.1 = inl e /\ (respond r).1 = Raised e) \/
  (exists d, r.1 = inr d /\ json_encodable d /\ (respond r).1 = Responded d) \/
  (exists d, r.1 = inr d /\ ~ json_encodable d /\
             (respond r).1 = ResponseFailed).
Proof.
  destruct r as [[e|d] st]; cbn [respond fst].
  - left. now exists e.
  - right. case_bool_decide; [left | right]; now exists d.
Qed.

(** What create returns cannot be encoded: it still carries the
    [ObjectId] under [_id]. *)
Lemma created_record_not_encodable (oid : N) (d : doc) :
  ~ json_encodable (<["id" := VStr (str_of_oid oid)]>
                      (<["_id" := VOid oid]> d)).
Proof.
  intros H. refine (H "_id" (VOid oid) _ oid eq_refl).
  rewrite lookup_insert_ne by congruence. apply lookup_insert_eq.
Qed.

(** C6 (as stated, refuted). A create request by an authenticated caller
    that carries no [expiration_date] is answered 422, not 400: the
    parameter is required, and the function and its guard are never
    reached. *)
Lemma create_without_expiration_date_is_unprocessable :
  create_route 2 (Some "Picture day") None None (Some "jdoe") sample_store =
    (Unprocessable, sample_store) /\
  http_status
    (create_route 2 (Some "Picture day") None None (Some "jdoe")
       sample_store).1 <> 400.
Proof. split; [reflexivity | vm_compute; discriminate]. Qed.

(** C6 (amended). For an authenticated caller and a request that carries a
    message: a create whose [expiration_date] is the empty string fails
    with the validation error (400), and one that carries no
    [expiration_date] is rejected with 422 before the function runs;
    either way the store is as it was. *)
Theorem create_route_requires_expiration_date (oid : N) (message : string)
    (start_date : option string) (username : string) (st : store) :
  principal_exists username st ->
  create_route oid (Some message) (Some "") start_date (Some username) st =
    (Raised (HTTPException 400 "Expiration date required"), st) /\
  create_route oid (Some message) None start_date (Some username) st =
    (Unprocessable, st).
Proof.
  intros Hp. rewrite !create_route_authenticated by exact Hp.
  split; [|reflexivity].
  unfold create_op.
  destruct (Depends_require_auth_cases username
              (create_announcement oid message (Some "") start_date) st)
    as [[_ (u & _ & _ & ->)]|[H _]]; [|contradiction].
  reflexivity.
Qed.

Lemma create_route_requires_expiration_date_witness :
  create_route 2 (Some "Picture day") (Some "") None (Some "jdoe")
    sample_store =
    (Raised (HTTPException 400 "Expiration date required"), sample_store) /\
  create_route 2 (Some "Picture day") None None (Some "jdoe") sample_store =
    (Unprocessable, sample_store).
Proof.
  exact (create_route_requires_expiration_date 2 "Picture day" None "jdoe"
           sample_store sample_principal).
Defined.

(** A request that did not get as far as the response step has written
    nothing: for create, update and delete, when the request is rejected
    (422), the caller unknown (401) or the function raises, the store is as
    it was.  The store changes only in requests that end in a response or
    in a failure of the response step. *)
Theorem request_without_response_writes_nothing (st : store) :
  (forall oid message expiration_date start_date username,
     let r := create_route oid message expiration_date start_date username
                st in
     (exists d, r.1 = Responded d) \/ r.1 = ResponseFailed \/ r.2 = st) /\
  (forall announcement_id message expiration_date start_date username,
     let r := update_route announcement_id message expiration_date start_date
                username st in
     (exists d, r.1 = Responded d) \/ r.1 = ResponseFailed \/ r.2 = st) /\
  (forall announcement_id username,
     let r := delete_route announcement_id username st in
     (exists d, r.1 = Responded d) \/ r.1 = ResponseFailed \/ r.2 = st).
Proof.
  assert (Hresp' : forall r : (error + doc) * store,
            ((exists e, r.1 = inl e) -> r.2 = st) ->
            (exists d, (respond r).1 = Responded d) \/
            (respond r).1 = ResponseFailed \/ (respond r).2 = st).
  { intros r Hst. rewrite respond_store.
    destruct (respond_cases r) as [(e & Hr & _)|[(d & _ & _ & ->)
                                  |(d & _ & _ & ->)]].
    - right. right. apply Hst. now exists e.
    - left. now exists d.
    - right. now left. }
  split; [|split].
  - intros oid message expiration_date start_date [username|];
      [|right; now right].
    destruct (require_auth_cases username st) as [[Hp _]|[Hp _]].
    + cbn zeta. rewrite create_route_authenticated by exact Hp.
      destruct message as [m|], expiration_date as [e|];
        try (right; now right).
      apply Hresp'. intros (err & Herr).
      destruct (create_op oid m (Some e) start_date username st)
        as [[x|x] st'] eqn:E; [|discriminate Herr].
      exact (create_op_error _ _ _ _ _ _ _ _ E).
    + cbn zeta. rewrite create_route_unauthenticated by exact Hp.
      right. now right.
  - intros announcement_id message expiration_date start_date [username|];
      [|right; now right].
    cbn zeta. unfold update_route. apply Hresp'. intros (err & Herr).
    destruct (update_op_outcome announcement_id message expiration_date
                start_date username st)
      as [(_ & E)|[(_ & _ & E)|[(_ & _ & _ & E)
          |(_ & _ & l1 & ann & l2 & _ & E)]]];
      rewrite E in *; first [reflexivity | discriminate Herr].
  - intros announcement_id [username|]; [|right; now right].
    cbn zeta. unfold delete_route. apply Hresp'. intros (err & Herr).
    destruct (delete_op_outcome announcement_id username st)
      as [(_ & E)|[(_ & _ & E)|(_ & l1 & ann & l2 & _ & E)]];
      rewrite E in *; first [reflexivity | discriminate Herr].
Qed.

Lemma first_with_id_principal (username : string) (st : store)
    (l1 l2 : list doc) (u : doc) :
  first_with_id username (teachers_collection st) l1 u l2 ->
  principal_exists username st.
Proof.
  intros (Hc & _ & Hid). exists u. split; [|exact Hid].
  rewrite Hc. apply in_or_app. right. now left.
Qed.

Ltac settle_route :=
  cbn [fst snd http_status respond];
  repeat match goal with
    | |- _ /\ _ => split
    | |- _ <-> _ => split
    | |- forall _, _ => intro
    end;
  repeat match goal with
    | H : _ /\ _ |- _ => destruct H
    | H : exists _, _ |- _ => destruct H
    | H : _ \/ _ |- _ => destruct H
    | H : is_Some None |- _ => now destruct H
    end;
  try congruence; try contradiction; try (now left); try (now right);
  try (now eexists); try discriminate.

(** For a caller whose principal record is [u], a create request is
    answered 422 exactly when it lacks [message] or [expiration_date];
    400 exactly when it has a message and an empty [expiration_date]; it
    raises [KeyError] exactly when both are fine and [u] has no [username]
    field; and exactly when both are fine, [u] has a [username] field and
    the generated identifier is not yet a key, the record is stored, after
    the existing ones and with the [username] field of [u] as
    [created_by], and the response step then fails.  No create request is
    ever answered with the created record. *)
Theorem create_route_outcomes (oid : N)
    (message expiration_date start_date : option string) (username : string)
    (st : store) (l1 l2 : list doc) (u : doc) :
  first_with_id username (teachers_collection st) l1 u l2 ->
  let r := create_route oid message expiration_date start_date
             (Some username) st in
  let c := announcements_collection st in
  let valid := is_Some message /\
               exists e, expiration_date = Some e /\ e <> "" in
  (r.1 = Unprocessable <-> message = None \/ expiration_date = None) /\
  (http_status r.1 = 400 <-> is_Some message /\ expiration_date = Some "") /\
  (r.1 = Raised (KeyError "username") <-> valid /\ u !! "username" = None) /\
  (r.1 = Raised DuplicateKeyError <->
   valid /\ is_Some (u !! "username") /\ Some (VOid oid) ∈ keys c) /\
  (r.1 = ResponseFailed <->
   valid /\ is_Some (u !! "username") /\ Some (VOid oid) ∉ keys c) /\
  (forall d, r.1 <> Responded d) /\
  (r.1 = ResponseFailed ->
   exists new : doc,
     r.2 = Store (teachers_collection st) (c ++ [new]) /\
     new !! "_id" = Some (VOid oid) /\
     new !! "created_by" = u !! "username") /\
  (r.1 <> ResponseFailed -> r.2 = st).
Proof.
  intros Hf r c valid. subst r c valid.
  rewrite (create_route_authenticated oid message expiration_date start_date
             username st (first_with_id_principal _ _ _ _ _ Hf)).
  destruct message as [m|]; [|settle_route].
  destruct expiration_date as [e|]; [|settle_route].
  rewrite (create_op_first oid m (Some e) start_date username st l1 l2 u Hf).
  assert (Hm : is_Some (Some m)) by now exists m.
  destruct e as [|a e].
  - cbn [respond]. settle_route.
  - assert (Hv : exists x, Some (String a e) = Some x /\ x <> "")
      by (eexists; split; [reflexivity | discriminate]).
    destruct (u !! "username") as [cb|] eqn:Hcb.
    + cbn zeta. case_bool_decide as Hk.
      * cbn [respond]. settle_route.
      * cbn [respond].
        rewrite bool_decide_eq_false_2 by apply created_record_not_encodable.
        settle_route.
    + cbn [respond]. settle_route.
Qed.

Lemma create_route_outcomes_witness :
  (create_route 2 (Some "Picture day") (Some "2025-01-10T00:00:00") None
     (Some "guest") staff_store).1 = Raised (KeyError "username") /\
  (create_route 2 (Some "Picture day") (Some "2025-01-10T00:00:00") None
     (Some "guest") staff_store).2 = staff_store.
Proof.
  destruct (create_route_outcomes 2 (Some "Picture day")
              (Some "2025-01-10T00:00:00") None "guest" staff_store
              [jdoe; asmith] [] guest staff_guest_first)
    as (_ & _ & [_ H] & _ & _ & _ & _ & H').
  assert (E : (create_route 2 (Some "Picture day")
                 (Some "2025-01-10T00:00:00") None (Some "guest")
                 staff_store).1 = Raised (KeyError "username")).
  { apply H. split; [|reflexivity].
    split; [now eexists|]. eexists. split; [reflexivity | discriminate]. }
  split; [exact E|]. apply H'. rewrite E. discriminate.
Defined.
